(** * superguide_client: the typed API client, its response validator,
      the header/URL helpers, the cache-key factory and the write-invalidate
      wiring of the history-list hook.

    Embedded sources:
    - [src/utils/starter-helpers.ts]  (module [Helpers])
    - [src/types.ts]                  (module [Types])
    - [src/network/StarterClient.ts]  (module [Client])
    - [src/hooks/useHistories.ts]     (modules [Hooks] and [Reads])
    - [src/hooks/useHistoriesTotal.ts] (module [Reads])

    JavaScript values are modelled as the data values a transport body can
    carry (JSON values and [undefined]); callables, symbols and exotic
    objects are outside the model. *)

From Stdlib Require Import Floats Ascii.
From stdpp Require Import gmap strings list.

Set Warnings "-register-all".

(* ================================================================== *)
(** * JavaScript data values *)
(* ================================================================== *)

Module Js.

(** A run-time value.  Numbers are IEEE-754 doubles; a plain object is a
    finite map from property names to values; strings are sequences of
    code units (only ASCII units are ever inspected by the code below). *)
Inductive JsValue : Type :=
| JUndefined
| JNull
| JBoolean (b : bool)
| JNumber (n : float)
| JString (s : string)
| JArray (xs : list JsValue)
| JObject (props : gmap string JsValue).

(** [typeof v] *)
Definition typeof (v : JsValue) : string :=
  match v with
  | JUndefined => "undefined"
  | JNull => "object"
  | JBoolean _ => "boolean"
  | JNumber _ => "number"
  | JString _ => "string"
  | JArray _ => "object"
  | JObject _ => "object"
  end.

(** [v != null] (loose inequality: false exactly for [null] and
    [undefined]). *)
Definition loose_ne_null (v : JsValue) : bool :=
  match v with
  | JUndefined | JNull => false
  | _ => true
  end.

(** ToBoolean. *)
Definition truthy (v : JsValue) : bool :=
  match v with
  | JUndefined | JNull => false
  | JBoolean b => b
  | JNumber n => negb (PrimFloat.eqb n 0 || PrimFloat.is_nan n)
  | JString s => negb (String.eqb s "")
  | JArray _ | JObject _ => true
  end.

(** The property names this package reads.  None of them is an array
    index, [length], or a name defined on a built-in prototype, so a read
    is decided by the own properties of a plain object alone. *)
Inductive PropertyKey : Type := K_success | K_data | K_error | K_message.

Definition key_name (k : PropertyKey) : string :=
  match k with
  | K_success => "success"
  | K_data => "data"
  | K_error => "error"
  | K_message => "message"
  end.

(** [v.k] on a value that is neither [null] nor [undefined]: own property
    of a plain object, [undefined] on arrays and (boxed) primitives. *)
Definition get_property (v : JsValue) (k : PropertyKey) : JsValue :=
  match v with
  | JObject props => default JUndefined (props !! key_name k)
  | _ => JUndefined
  end.

(** [v?.k]: short-circuits to [undefined] on [null] and [undefined]. *)
Definition optional_get (v : JsValue) (k : PropertyKey) : JsValue :=
  match v with
  | JUndefined | JNull => JUndefined
  | _ => get_property v k
  end.

(** ['k' in v] for [v] with [typeof v === 'object'] and [v != null].  On a
    primitive the operator throws; every use below is guarded by those two
    tests, and that unreachable case is given [false]. *)
Definition has_property (k : PropertyKey) (v : JsValue) : bool :=
  match v with
  | JObject props => bool_decide (is_Some (props !! key_name k))
  | _ => false
  end.

(** [a || b] on values. *)
Definition or_else (a b : JsValue) : JsValue := if truthy a then a else b.

(** An [Error] instance. *)
Record Error : Type := new_Error { message : string }.

(** What a [throw] (or a rejected promise) carries. *)
Inductive Exception : Type :=
| ThrownError (e : Error)
| ThrownValue (v : JsValue).

(** How a call completes: it returns (the promise fulfils) or it throws
    (the promise rejects). *)
Inductive Outcome (A : Type) : Type :=
| Returns (a : A)
| Throws (e : Exception).
Arguments Returns {A} a.
Arguments Throws {A} e.

Section ToString.

(** Number::toString (shortest round-trip decimal); left abstract. *)
Variable number_to_string : float -> string.

(** The [TypeError] the engine throws when an object cannot be converted
    to a primitive; its message is the engine's own. *)
Variable type_error : Error.

Definition join_with (sep : string) (parts : list string) : string :=
  match parts with
  | [] => ""
  | p :: ps => fold_left (fun acc q => acc +:+ sep +:+ q) ps p
  end.

(** ToString, as applied by a template literal [`${v}`] and by
    [new Error(v)].  A plain object is converted by the first callable of
    its [toString] and [valueOf]: without an own [toString] entry that is
    [Object.prototype.toString], which gives ["[object Object]"]; with one
    (a data value, so not callable) only [Object.prototype.valueOf] or an
    own [valueOf] entry is left, neither of which yields a primitive, and a
    [TypeError] is thrown.  An array prints as its elements joined by
    commas, [null] and [undefined] elements printing as the empty string,
    and throws when the conversion of an element throws. *)
Fixpoint to_string (v : JsValue) : Outcome string :=
  match v with
  | JUndefined => Returns "undefined"
  | JNull => Returns "null"
  | JBoolean true => Returns "true"
  | JBoolean false => Returns "false"
  | JNumber n => Returns (number_to_string n)
  | JString s => Returns s
  | JArray xs =>
      match (fix elements (l : list JsValue) : Outcome (list string) :=
               match l with
               | [] => Returns []
               | x :: l' =>
                   match (match x with
                          | JUndefined | JNull => Returns ""
                          | _ => to_string x
                          end) with
                   | Returns part =>
                       match elements l' with
                       | Returns parts => Returns (part :: parts)
                       | Throws e => Throws e
                       end
                   | Throws e => Throws e
                   end
               end) xs with
      | Returns parts => Returns (join_with "," parts)
      | Throws e => Throws e
      end
  | JObject props =>
      if bool_decide (is_Some (props !! "toString"))
      then Throws (ThrownError type_error)
      else Returns "[object Object]"
  end.

End ToString.

End Js.
Import Js.

(* ================================================================== *)
(** * src/utils/starter-helpers.ts *)
(* ================================================================== *)

Module Helpers.

(** [createAuthHeaders(token)] *)
Definition createAuthHeaders (token : string) : gmap string string :=
  <["Authorization" := "Bearer " +:+ token]>
    (<["Accept" := "application/json"]>
       (<["Content-Type" := "application/json"]> ∅)).

(** [createHeaders()] *)
Definition createHeaders : gmap string string :=
  <["Accept" := "application/json"]>
    (<["Content-Type" := "application/json"]> ∅).

(** [s.replace(/\/$/, '')]: the regular expression is neither global nor
    multiline, so the leftmost position where a ['/'] is followed by the
    end of input is searched for, and that one character is removed. *)
Fixpoint replace_slash_at_end (s : string) : string :=
  match s with
  | EmptyString => EmptyString
  | String c rest =>
      if Ascii.eqb c "/" && String.eqb rest ""
      then EmptyString
      else String c (replace_slash_at_end rest)
  end.

(** [buildUrl(baseUrl, path)] *)
Definition buildUrl (baseUrl path : string) : string :=
  let cleanBase := replace_slash_at_end baseUrl in
  cleanBase +:+ path.

Section HandleApiError.
Variable number_to_string : float -> string.
Variable type_error : Error.

(** [handleApiError(response, operation)]: it returns the [Error] it
    builds, unless the template literal throws while converting the
    message. *)
Definition handleApiError (response : JsValue) (operation : string)
    : Outcome Error :=
  let resp := response in
  let errorMessage :=
    or_else (optional_get (optional_get resp K_data) K_error)
      (or_else (optional_get (optional_get resp K_data) K_message)
         (JString "Unknown error")) in
  match to_string number_to_string type_error errorMessage with
  | Returns printed =>
      Returns (new_Error ("Failed to " +:+ operation +:+ ": " +:+ printed))
  | Throws e => Throws e
  end.
End HandleApiError.

End Helpers.

(* ================================================================== *)
(** * src/types.ts *)
(* ================================================================== *)

Module Types.

(** [DEFAULT_STALE_TIME] and [DEFAULT_GC_TIME], in milliseconds. *)
Definition DEFAULT_STALE_TIME : Z := 5 * 60 * 1000.
Definition DEFAULT_GC_TIME : Z := 30 * 60 * 1000.

(** A cache key: an ordered tuple of string segments, compared
    structurally by the caching engine. *)
Abbreviation QueryKey := (list string).

Module QUERY_KEYS.
Definition histories (userId : string) : QueryKey :=
  ["starter"; "histories"; userId].
Definition historiesTotal : QueryKey :=
  ["starter"; "histories"; "total"].
Definition user (userId : string) : QueryKey :=
  ["starter"; "user"; userId].
End QUERY_KEYS.

End Types.

(* ================================================================== *)
(** * The environment: transport and caching engine *)
(* ================================================================== *)

Module Env.

Inductive Method : Type := GET | POST | PUT | DELETE.

(** One call made on the transport. *)
Record Request : Type := new_Request {
  method : Method;
  url : string;
  req_headers : gmap string string;
  req_body : option JsValue
}.

(** What the package's collaborators observe: the calls received by the
    transport and the keys passed to [queryClient.invalidateQueries], both
    in order of occurrence. *)
Record World : Type := new_World {
  requests : list Request;
  invalidated : list Types.QueryKey
}.

(** An asynchronous computation, run to completion: it transforms the
    world and either returns or throws. *)
Definition M (A : Type) : Type := World -> Outcome A * World.

Definition ret {A} (a : A) : M A := fun w => (Returns a, w).

Definition bind {A B} (c : M A) (k : A -> M B) : M B :=
  fun w =>
    match c w with
    | (Returns a, w') => k a w'
    | (Throws e, w') => (Throws e, w')
    end.

(** A synchronous result used inside an async function. *)
Definition lift {A} (o : Outcome A) : M A := fun w => (o, w).

Declare Scope async_scope.
Delimit Scope async_scope with async.
Notation "x <- c ;; k" := (bind c (fun x => k))
  (at level 100, c at next level, right associativity) : async_scope.
Notation "c ;;; k" := (bind c (fun _ => k))
  (at level 100, right associativity) : async_scope.

Record RequestOptions : Type := new_RequestOptions {
  headers : gmap string string
}.

Record NetworkResponse : Type := new_NetworkResponse { data : JsValue }.

(** The injected transport ([NetworkClient] of [@sudobility/types]). *)
Module NetworkClient.
Record t : Type := make {
  get : string -> RequestOptions -> M NetworkResponse;
  post : string -> JsValue -> RequestOptions -> M NetworkResponse;
  put : string -> JsValue -> RequestOptions -> M NetworkResponse;
  delete : string -> RequestOptions -> M NetworkResponse
}.
End NetworkClient.

(** A transport that records each call it receives and answers it as
    [respond] says, given the calls received before and the call itself:
    any body, or a thrown transport error. *)
Definition Responder : Type := list Request -> Request -> Outcome JsValue.

Definition perform (respond : Responder) (r : Request) : M NetworkResponse :=
  fun w =>
    (match respond (requests w) r with
     | Returns d => Returns (new_NetworkResponse d)
     | Throws e => Throws e
     end,
     new_World (requests w ++ [r]) (invalidated w)).

Definition recordingNetworkClient (respond : Responder) : NetworkClient.t :=
  NetworkClient.make
    (fun url options => perform respond (new_Request GET url (headers options) None))
    (fun url body options => perform respond (new_Request POST url (headers options) (Some body)))
    (fun url body options => perform respond (new_Request PUT url (headers options) (Some body)))
    (fun url options => perform respond (new_Request DELETE url (headers options) None)).

(** [createMockNetworkClient(responseData)] of [StarterClient.test.ts]:
    every method resolves to [{ data: responseData }]. *)
Definition createMockNetworkClient (responseData : JsValue) : NetworkClient.t :=
  recordingNetworkClient (fun _ _ => Returns responseData).

(** The engine's reaction to an invalidation: the query functions it runs
    again at once, those of the active queries the key matches, as its cache
    state decides. *)
Definition Reaction : Type := World -> Types.QueryKey -> list (M JsValue).

(** The query functions of a reaction are started in turn; what they
    return or throw goes to the cache, not to the caller. *)
Fixpoint run_for_cache (queryFns : list (M JsValue)) (w : World) : World :=
  match queryFns with
  | [] => w
  | queryFn :: rest => run_for_cache rest (queryFn w).2
  end.

(** [queryClient.invalidateQueries({ queryKey })]: the key is invalidated
    and the engine refetches as it reacts to it, before the caller goes on. *)
Definition invalidateQueries (reaction : Reaction) (queryKey : Types.QueryKey)
    : M unit :=
  fun w =>
    let w' := new_World (requests w) (invalidated w ++ [queryKey]) in
    (Returns tt, run_for_cache (reaction w' queryKey) w').

(** [useMutation({ mutationFn, onSuccess }).mutateAsync(variables)]: the
    engine awaits the [mutationFn] of the options it holds when the write is
    started; when it fulfils, the [onSuccess] of the options it holds by
    then (those of the hook's latest render) runs with the result, and the
    result is returned; when it rejects, no [onSuccess] is run and the
    rejection is passed on. *)
Definition mutateAsync {V A : Type}
    (mutationFn : V -> M A) (latestOnSuccess : A -> M unit) (variables : V) : M A :=
  (response <- mutationFn variables ;;
   latestOnSuccess response ;;;
   ret response)%async.

End Env.
Import Env.
Local Open Scope async_scope.

(* ================================================================== *)
(** * src/network/StarterClient.ts *)
(* ================================================================== *)

Module Client.
Import Helpers.

(** [validateResponse<T>(data, operation)] *)
Definition validateResponse (data : JsValue) (operation : string) : Outcome JsValue :=
  if loose_ne_null data
     && String.eqb (typeof data) "object"
     && has_property K_success data
     && String.eqb (typeof (get_property data K_success)) "boolean"
  then Returns data
  else Throws (ThrownError (new_Error
         ("Invalid API response for " +:+ operation
          +:+ ": response does not match expected BaseResponse shape"))).

Record StarterClient : Type := new_StarterClient {
  baseUrl : string;
  networkClient : NetworkClient.t
}.

Definition getUser (this : StarterClient) (userId token : string) : M JsValue :=
  let url := buildUrl (baseUrl this) ("/api/v1/users/" +:+ userId) in
  response <- NetworkClient.get (networkClient this) url
                (new_RequestOptions (createAuthHeaders token)) ;;
  lift (validateResponse (data response) "getUser").

Definition getHistories (this : StarterClient) (userId token : string) : M JsValue :=
  let url := buildUrl (baseUrl this) ("/api/v1/users/" +:+ userId +:+ "/histories") in
  response <- NetworkClient.get (networkClient this) url
                (new_RequestOptions (createAuthHeaders token)) ;;
  lift (validateResponse (data response) "getHistories").

Definition createHistory (this : StarterClient) (userId : string)
    (data : JsValue) (token : string) : M JsValue :=
  let url := buildUrl (baseUrl this) ("/api/v1/users/" +:+ userId +:+ "/histories") in
  response <- NetworkClient.post (networkClient this) url data
                (new_RequestOptions (createAuthHeaders token)) ;;
  lift (validateResponse (Env.data response) "createHistory").

Definition updateHistory (this : StarterClient) (userId historyId : string)
    (data : JsValue) (token : string) : M JsValue :=
  let url := buildUrl (baseUrl this)
               ("/api/v1/users/" +:+ userId +:+ "/histories/" +:+ historyId) in
  response <- NetworkClient.put (networkClient this) url data
                (new_RequestOptions (createAuthHeaders token)) ;;
  lift (validateResponse (Env.data response) "updateHistory").

Definition deleteHistory (this : StarterClient) (userId historyId token : string)
    : M JsValue :=
  let url := buildUrl (baseUrl this)
               ("/api/v1/users/" +:+ userId +:+ "/histories/" +:+ historyId) in
  response <- NetworkClient.delete (networkClient this) url
                (new_RequestOptions (createAuthHeaders token)) ;;
  lift (validateResponse (data response) "deleteHistory").

Definition getHistoriesTotal (this : StarterClient) : M JsValue :=
  let url := buildUrl (baseUrl this) "/api/v1/histories/total" in
  response <- NetworkClient.get (networkClient this) url
                (new_RequestOptions createHeaders) ;;
  lift (validateResponse (data response) "getHistoriesTotal").

End Client.

(* ================================================================== *)
(** * src/hooks/useHistories.ts *)
(* ================================================================== *)

Module Hooks.
Import Types.

(** A [string | null] argument. *)
Abbreviation Nullable := (option string).

(** [!!x] for [x : string | null]. *)
Definition nullable_truthy (x : Nullable) : bool :=
  match x with
  | Some s => negb (String.eqb s "")
  | None => false
  end.

(** [x!] where the callee only interpolates the argument into template
    literals: the assertion is erased at run time, and a [null] prints as
    ["null"]. *)
Definition non_null (x : Nullable) : string := default "null" x.

(** [x ?? ''] *)
Definition or_empty (x : Nullable) : string := default "" x.

(** The part of [UseHistoriesReturn] that is decided by this package (the
    [data], [isLoading] and [error] projections are state of the caching
    engine). *)
Record UseHistoriesReturn : Type := new_UseHistoriesReturn {
  queryKey : QueryKey;
  enabled : bool;
  createHistory : JsValue -> M JsValue;
  updateHistory : string -> JsValue -> M JsValue;
  deleteHistory : string -> M JsValue
}.

(** A read this package registers with the caching engine: the query of a
    mounted history-list hook or of a mounted total hook, each over a
    recording transport. *)
Inductive Read : Type :=
| ReadHistories (respond : Responder) (baseUrl : string) (userId token : Nullable)
| ReadTotal (respond : Responder) (baseUrl : string).

(** What running the query function of a read does to the world: it is
    the client call the query function starts with (what it makes of the
    response goes to the cache). *)
Definition run_read (r : Read) : M JsValue :=
  match r with
  | ReadHistories respond baseUrl userId token =>
      Client.getHistories
        (Client.new_StarterClient baseUrl (recordingNetworkClient respond))
        (non_null userId) (non_null token)
  | ReadTotal respond baseUrl =>
      Client.getHistoriesTotal
        (Client.new_StarterClient baseUrl (recordingNetworkClient respond))
  end.

(** The caching engine around a rendered hook: the reads it refetches when
    a key is invalidated, and the user id of the hook's latest render when
    a write settles, when the hook was rendered again with other props while
    the write was in flight ([None] when it was not). *)
Record Engine : Type := new_Engine {
  refetched : World -> QueryKey -> list Read;
  rerendered : option Nullable
}.

Definition reaction (engine : Engine) : Reaction :=
  fun w queryKey => map run_read (refetched engine w queryKey).

(** The user id of the latest render when a write settles. *)
Definition latest_userId (engine : Engine) (userId : Nullable) : Nullable :=
  default userId (rerendered engine).

(** The [invalidate] callback of [useHistories]. *)
Definition invalidate (engine : Engine) (userId : Nullable) : M unit :=
  (if nullable_truthy userId
   then invalidateQueries (reaction engine) (QUERY_KEYS.histories (non_null userId))
   else ret tt) ;;;
  invalidateQueries (reaction engine) QUERY_KEYS.historiesTotal.

(** The [onSuccess] callback shared by the three mutations. *)
Definition onSuccess (engine : Engine) (userId : Nullable) (response : JsValue)
    : M unit :=
  if truthy (get_property response K_success)
  then invalidate engine userId
  else ret tt.

(** [useHistories] as rendered when a write is started.  The closures are
    rebuilt on every render: a write runs the [mutationFn] of this render
    and the [onSuccess] of the render that is the latest when the write
    settles. *)
Definition useHistories (networkClient : NetworkClient.t) (baseUrl : string)
    (userId token : Nullable) (options_enabled : option bool) (engine : Engine)
    : UseHistoriesReturn :=
  let enabled :=
    default true options_enabled && nullable_truthy userId && nullable_truthy token in
  let client := Client.new_StarterClient baseUrl networkClient in
  let latestOnSuccess := onSuccess engine (latest_userId engine userId) in
  let createMutation :=
    mutateAsync
      (fun data => Client.createHistory client (non_null userId) data (non_null token))
      latestOnSuccess in
  let updateMutation :=
    mutateAsync
      (fun '(historyId, data) =>
         Client.updateHistory client (non_null userId) historyId data (non_null token))
      latestOnSuccess in
  let deleteMutation :=
    mutateAsync
      (fun historyId =>
         Client.deleteHistory client (non_null userId) historyId (non_null token))
      latestOnSuccess in
  new_UseHistoriesReturn
    (QUERY_KEYS.histories (or_empty userId))
    enabled
    (fun data => createMutation data)
    (fun historyId data => updateMutation (historyId, data))
    (fun historyId => deleteMutation historyId).

(** The engine around a hook that is the only one mounted, is not rendered
    again while a write is in flight, and whose read, when enabled, is
    loaded and idle: an invalidated key that is a prefix of the key of the
    read makes the engine run the read again. *)
Definition sole_hook (respond : Responder) (baseUrl : string)
    (userId token : Nullable) (options_enabled : option bool) : Engine :=
  new_Engine
    (fun _ queryKey =>
       if default true options_enabled && nullable_truthy userId
          && nullable_truthy token
          && bool_decide (queryKey `prefix_of` QUERY_KEYS.histories (or_empty userId))
       then [ReadHistories respond baseUrl userId token]
       else [])
    None.

End Hooks.

(* ================================================================== *)
(** * The six operations as one type *)
(* ================================================================== *)

Module Ops.
Import Hooks.

(** A call of one of the six client methods, with its arguments. *)
Inductive Operation : Type :=
| GetUser (userId token : string)
| GetHistories (userId token : string)
| CreateHistory (userId : string) (data : JsValue) (token : string)
| UpdateHistory (userId historyId : string) (data : JsValue) (token : string)
| DeleteHistory (userId historyId token : string)
| GetHistoriesTotal.

Definition call (c : Client.StarterClient) (op : Operation) : M JsValue :=
  match op with
  | GetUser userId token => Client.getUser c userId token
  | GetHistories userId token => Client.getHistories c userId token
  | CreateHistory userId data token => Client.createHistory c userId data token
  | UpdateHistory userId historyId data token =>
      Client.updateHistory c userId historyId data token
  | DeleteHistory userId historyId token =>
      Client.deleteHistory c userId historyId token
  | GetHistoriesTotal => Client.getHistoriesTotal c
  end.

(** The operation name each method hands to the validator. *)
Definition operation_name (op : Operation) : string :=
  match op with
  | GetUser _ _ => "getUser"
  | GetHistories _ _ => "getHistories"
  | CreateHistory _ _ _ => "createHistory"
  | UpdateHistory _ _ _ _ => "updateHistory"
  | DeleteHistory _ _ _ => "deleteHistory"
  | GetHistoriesTotal => "getHistoriesTotal"
  end.

(** A call of one of the three write functions the hook returns. *)
Inductive Write : Type :=
| WriteCreate (data : JsValue)
| WriteUpdate (historyId : string) (data : JsValue)
| WriteDelete (historyId : string).

Definition write (h : UseHistoriesReturn) (wr : Write) : M JsValue :=
  match wr with
  | WriteCreate data => createHistory h data
  | WriteUpdate historyId data => updateHistory h historyId data
  | WriteDelete historyId => deleteHistory h historyId
  end.

(** The client call a write of the hook stands for. *)
Definition write_operation (userId token : Nullable) (wr : Write) : Operation :=
  match wr with
  | WriteCreate data => CreateHistory (non_null userId) data (non_null token)
  | WriteUpdate historyId data =>
      UpdateHistory (non_null userId) historyId data (non_null token)
  | WriteDelete historyId =>
      DeleteHistory (non_null userId) historyId (non_null token)
  end.

(** An object literal. *)
Definition object (entries : list (string * JsValue)) : JsValue :=
  JObject (list_to_map entries).

End Ops.

(* ================================================================== *)
(** * The specification's own wording, as definitions *)
(* ================================================================== *)

Module Spec.
Import Types Ops.

(** "with or without a trailing slash" *)
Definition ends_with_slash (b : string) : bool :=
  String.eqb (String.substring (String.length b - 1) 1 b) "/".

(** "[base] with any single trailing [/] removed" *)
Definition strip_one_trailing_slash (b : string) : string :=
  if ends_with_slash b
  then String.substring 0 (String.length b - 1) b
  else b.

(** "contains a key [k]" *)
Definition contains_key (v : JsValue) (k : PropertyKey) : Prop :=
  match v with
  | JObject props => is_Some (props !! key_name k)
  | _ => False
  end.

(** "non-null, is an object (not a primitive), contains a key [success],
    and the value of that key is strictly boolean" *)
Definition is_envelope (v : JsValue) : Prop :=
  v ≠ JNull
  ∧ typeof v = "object"
  ∧ contains_key v K_success
  ∧ ∃ b : bool, get_property v K_success = JBoolean b.

(** The validator's message as the specification words it. *)
Definition envelope_shape_message (operation : string) : string :=
  "Invalid API response for " +:+ operation
  +:+ ": response does not match expected envelope shape".

(** The operation table of the API client: method, path, auth, body. *)
Definition table_method (op : Operation) : Method :=
  match op with
  | GetUser _ _ => GET
  | GetHistories _ _ => GET
  | CreateHistory _ _ _ => POST
  | UpdateHistory _ _ _ _ => PUT
  | DeleteHistory _ _ _ => DELETE
  | GetHistoriesTotal => GET
  end.

Definition table_path (op : Operation) : string :=
  match op with
  | GetUser userId _ => "/api/v1/users/" +:+ userId
  | GetHistories userId _ => "/api/v1/users/" +:+ userId +:+ "/histories"
  | CreateHistory userId _ _ => "/api/v1/users/" +:+ userId +:+ "/histories"
  | UpdateHistory userId historyId _ _ =>
      "/api/v1/users/" +:+ userId +:+ "/histories/" +:+ historyId
  | DeleteHistory userId historyId _ =>
      "/api/v1/users/" +:+ userId +:+ "/histories/" +:+ historyId
  | GetHistoriesTotal => "/api/v1/histories/total"
  end.

(** [Some token] where auth is required, [None] for the public one. *)
Definition table_auth (op : Operation) : option string :=
  match op with
  | GetUser _ token => Some token
  | GetHistories _ token => Some token
  | CreateHistory _ _ token => Some token
  | UpdateHistory _ _ _ token => Some token
  | DeleteHistory _ _ token => Some token
  | GetHistoriesTotal => None
  end.

Definition table_body (op : Operation) : option JsValue :=
  match op with
  | CreateHistory _ data _ => Some data
  | UpdateHistory _ _ data _ => Some data
  | _ => None
  end.

(** The transport call the table prescribes for an operation. *)
Definition expected_request (baseUrl : string) (op : Operation) : Request :=
  new_Request
    (table_method op)
    (Helpers.buildUrl baseUrl (table_path op))
    (match table_auth op with
     | Some token => Helpers.createAuthHeaders token
     | None => Helpers.createHeaders
     end)
    (table_body op).

(** "pass the raw response body to the validator tagged with this
    operation's name, return the validated envelope"; a transport failure
    is passed on unmodified. *)
Definition answer (respond : Responder) (baseUrl : string)
    (w : World) (op : Operation) : Outcome JsValue :=
  match respond (requests w) (expected_request baseUrl op) with
  | Returns body => Client.validateResponse body (operation_name op)
  | Throws e => Throws e
  end.

(** The transport call a read makes. *)
Definition read_request (r : Hooks.Read) : Request :=
  match r with
  | Hooks.ReadHistories _ baseUrl userId token =>
      expected_request baseUrl
        (GetHistories (Hooks.non_null userId) (Hooks.non_null token))
  | Hooks.ReadTotal _ baseUrl => expected_request baseUrl GetHistoriesTotal
  end.

(** A field of a keyed structure, when present. *)
Definition field (v : JsValue) (k : PropertyKey) : option JsValue :=
  match v with
  | JObject props => props !! key_name k
  | _ => None
  end.

(** "the input's [data.k] field", when present. *)
Definition data_field (v : JsValue) (k : PropertyKey) : option JsValue :=
  field v K_data ≫= λ d, field d k.

(** "[data.error] if present, else [data.message] if present, else
    ['Unknown error']" *)
Definition message_if_present (v : JsValue) : JsValue :=
  match data_field v K_error with
  | Some e => e
  | None =>
      match data_field v K_message with
      | Some m => m
      | None => JString "Unknown error"
      end
  end.

(** A field that is present and truthy. *)
Definition truthy_field (o : option JsValue) : option JsValue :=
  match o with
  | Some x => if truthy x then Some x else None
  | None => None
  end.

(** "[data.error] if truthy, else [data.message] if truthy, else
    ['Unknown error']" *)
Definition message_if_truthy (v : JsValue) : JsValue :=
  match truthy_field (data_field v K_error) with
  | Some e => e
  | None =>
      match truthy_field (data_field v K_message) with
      | Some m => m
      | None => JString "Unknown error"
      end
  end.

End Spec.

(* ================================================================== *)
(** * The read side of the hooks
      (src/hooks/useHistories.ts, src/hooks/useHistoriesTotal.ts) *)
(* ================================================================== *)

Module Reads.
Import Types Hooks.

(** What [useQuery] hands back to a hook: the cached data ([undefined]
    until a load has succeeded), the loading flag, and the rejection of the
    last load ([null] when there is none). *)
Record QueryResult : Type := new_QueryResult {
  query_data : JsValue;
  query_isLoading : bool;
  query_error : option Exception
}.

(** [e instanceof Error ? e.message : null] for a rejection [e] or [null]. *)
Definition error_message (e : option Exception) : option string :=
  match e with
  | Some (ThrownError err) => Some (message err)
  | _ => None
  end.

(** [a ?? b] on values. *)
Definition nullish_else (a b : JsValue) : JsValue :=
  match a with
  | JUndefined | JNull => b
  | _ => a
  end.

(** [v?.total]: like the four names of [PropertyKey], [total] is neither an
    index, [length], nor a name of a built-in prototype. *)
Definition optional_get_total (v : JsValue) : JsValue :=
  match v with
  | JObject props => default JUndefined (props !! "total")
  | _ => JUndefined
  end.

Section WithNumbers.
Variable number_to_string : float -> string.
Variable type_error : Error.

(** [new Error(x)]: the message is ToString of the argument, and the empty
    string of [Error.prototype] when the argument is [undefined]; the
    constructor throws when that conversion throws. *)
Definition Error_of (x : JsValue) : Outcome Error :=
  match x with
  | JUndefined => Returns (new_Error "")
  | _ =>
      match to_string number_to_string type_error x with
      | Returns printed => Returns (new_Error printed)
      | Throws e => Throws e
      end
  end.

(** [throw new Error(x)] *)
Definition throw_new_Error (x : JsValue) : Outcome JsValue :=
  match Error_of x with
  | Returns e => Throws (ThrownError e)
  | Throws e => Throws e
  end.

(** The [queryFn] of [useHistories]. *)
Definition histories_queryFn (client : Client.StarterClient)
    (userId token : Nullable) : M JsValue :=
  response <- Client.getHistories client (non_null userId) (non_null token) ;;
  if negb (truthy (get_property response K_success))
     || negb (truthy (get_property response K_data))
  then lift (throw_new_Error
         (or_else (get_property response K_error)
            (JString "Failed to fetch histories")))
  else ret (get_property response K_data).

(** The [queryFn] of [useHistoriesTotal]. *)
Definition total_queryFn (client : Client.StarterClient) : M JsValue :=
  response <- Client.getHistoriesTotal client ;;
  if negb (truthy (get_property response K_success))
     || negb (truthy (get_property response K_data))
  then lift (throw_new_Error
         (or_else (get_property response K_error)
            (JString "Failed to fetch total")))
  else ret (get_property response K_data).

End WithNumbers.

(** The [error] of a mutation is what its last run was rejected with, and
    [null] when it was not rejected; [e ?? ...] passes over it when it is
    [null] or [undefined], which it also is after a rejection with [null]
    or [undefined]. *)
Definition nullish_rejection (e : option Exception) : bool :=
  match e with
  | None => true
  | Some (ThrownValue JNull) | Some (ThrownValue JUndefined) => true
  | Some _ => false
  end.

(** The [error] string of [useHistories], from the rejection of the read
    and those of the create, update and delete mutations. *)
Definition histories_error
    (queryError createError updateError deleteError : option Exception)
    : option string :=
  let mutationError :=
    if nullish_rejection createError
    then (if nullish_rejection updateError then deleteError else updateError)
    else createError in
  let queryErrorMessage := error_message queryError in
  let mutationErrorMessage := error_message mutationError in
  match queryErrorMessage with
  | Some m => Some m
  | None => mutationErrorMessage
  end.

(** [histories: data ?? EMPTY_HISTORIES] *)
Definition histories_list (data : JsValue) : JsValue :=
  nullish_else data (JArray []).

(** The query [useHistoriesTotal] registers. *)
Record TotalQuery : Type := new_TotalQuery {
  queryKey : QueryKey;
  queryFn : M JsValue;
  enabled : bool;
  staleTime : Z;
  gcTime : Z
}.

(** What [useHistoriesTotal] returns ([refetch] is the engine's own). *)
Record UseHistoriesTotalReturn : Type := new_UseHistoriesTotalReturn {
  total : JsValue;
  isLoading : bool;
  error : option string
}.

(** [useHistoriesTotal], as the query it registers ... *)
Definition useHistoriesTotal_query (number_to_string : float -> string)
    (type_error : Error)
    (networkClient : NetworkClient.t) (baseUrl : string)
    (options_enabled : option bool) : TotalQuery :=
  let enabled := default true options_enabled in
  let client := Client.new_StarterClient baseUrl networkClient in
  new_TotalQuery QUERY_KEYS.historiesTotal
    (total_queryFn number_to_string type_error client)
    enabled DEFAULT_STALE_TIME DEFAULT_GC_TIME.

(** ... and as what it makes of the engine's result. *)
Definition useHistoriesTotal_return (r : QueryResult) : UseHistoriesTotalReturn :=
  let error := error_message (query_error r) in
  new_UseHistoriesTotalReturn
    (nullish_else (optional_get_total (query_data r)) (JNumber 0))
    (query_isLoading r)
    error.

End Reads.

(* ================================================================== *)
(** * Header and URL builders *)
(* ================================================================== *)

Section BuildUrl.
Import Helpers Spec.

Lemma append_cons (x : ascii) (s t : string) :
  String x s +:+ t = String x (s +:+ t).
Proof. reflexivity. Qed.

Lemma append_assoc (a b c : string) : (a +:+ b) +:+ c = a +:+ (b +:+ c).
Proof.
  induction a as [|x a IH]; [done |]. rewrite !append_cons. by f_equal.
Qed.

Lemma snoc_nonempty (s : string) (c : ascii) :
  String.eqb (s +:+ String c "") "" = false.
Proof. by destruct s. Qed.

Lemma length_snoc_pred (s : string) (c : ascii) :
  String.length (s +:+ String c "") - 1 = String.length s.
Proof.
  induction s as [|x s IH]; [done |].
  rewrite append_cons. cbn [String.length].
  destruct (s +:+ String c "") eqn:E; [by destruct s |].
  cbn [String.length] in *. lia.
Qed.

(** A base that ends in a slash loses exactly that slash. *)
Lemma replace_slash_at_end_snoc (b : string) :
  replace_slash_at_end (b +:+ "/") = b.
Proof.
  induction b as [|c b IH]; [done |].
  rewrite append_cons. cbn [replace_slash_at_end].
  by rewrite snoc_nonempty, andb_false_r, IH.
Qed.

(** A base that ends in another unit is left as it is. *)
Lemma replace_slash_at_end_other (s : string) (c : ascii) :
  c ≠ "/"%char → replace_slash_at_end (s +:+ String c "") = s +:+ String c "".
Proof.
  intros Hc. apply Ascii.eqb_neq in Hc. induction s as [|x s IH].
  - change ("" +:+ String c "") with (String c "").
    cbn [replace_slash_at_end]. by rewrite Hc.
  - rewrite append_cons. cbn [replace_slash_at_end].
    by rewrite snoc_nonempty, andb_false_r, IH.
Qed.

(** Every string is empty or ends in some unit. *)
Lemma string_snoc_cases (s : string) :
  s = "" ∨ ∃ s' c, s = s' +:+ String c "".
Proof.
  induction s as [|x s IH]; [by left | right].
  destruct IH as [-> | (s' & c & ->)].
  - by exists "", x.
  - by exists (String x s'), c.
Qed.

Lemma substring_last (s : string) (c : ascii) :
  String.substring (String.length s) 1 (s +:+ String c "") = String c "".
Proof.
  induction s as [|x s IH]; [done |].
  rewrite append_cons. cbn [String.length String.substring]. exact IH.
Qed.

Lemma substring_init (s : string) (c : ascii) :
  String.substring 0 (String.length s) (s +:+ String c "") = s.
Proof.
  induction s as [|x s IH]; [done |].
  rewrite append_cons. cbn [String.length String.substring]. by rewrite IH.
Qed.

(** The regular-expression replacement is the specification's stripping. *)
Lemma replace_slash_at_end_spec (b : string) :
  replace_slash_at_end b = strip_one_trailing_slash b.
Proof.
  unfold strip_one_trailing_slash, ends_with_slash.
  destruct (string_snoc_cases b) as [-> | (s & c & ->)]; [done |].
  rewrite length_snoc_pred, substring_last, substring_init.
  destruct (decide (c = "/"%char)) as [-> | Hc].
  - rewrite String.eqb_refl. apply replace_slash_at_end_snoc.
  - replace (String.eqb (String c "") "/") with false.
    + by apply replace_slash_at_end_other.
    + symmetry. apply String.eqb_neq. congruence.
Qed.

End BuildUrl.

(** C7. For every base [b] and path [p], [buildUrl b p] is [b] with at most
    one trailing slash removed, followed by [p] unchanged: it is the
    specification's stripping of [b] followed by [p]; a base written with
    one more trailing slash gives the URL of the base without it, also when
    that base itself ends in a slash (only one is removed); and
    [buildUrl "https://x/" "/y"] equals [buildUrl "https://x" "/y"]. *)
Theorem C7_buildUrl_strips_one_trailing_slash (b p : string) :
  Helpers.buildUrl b p = Spec.strip_one_trailing_slash b +:+ p
  ∧ Helpers.buildUrl b p
    = (if Spec.ends_with_slash b
       then String.substring 0 (String.length b - 1) b else b) +:+ p
  ∧ Helpers.buildUrl (b +:+ "/") p = b +:+ p
  ∧ Helpers.buildUrl (b +:+ "//") p = b +:+ "/" +:+ p
  ∧ Helpers.buildUrl "https://x/" "/y" = Helpers.buildUrl "https://x" "/y"
  ∧ Helpers.buildUrl "https://x/" "/y" = "https://x/y".
Proof.
  unfold Helpers.buildUrl. cbn zeta.
  split_and!.
  - by rewrite replace_slash_at_end_spec.
  - by rewrite replace_slash_at_end_spec.
  - by rewrite replace_slash_at_end_snoc.
  - replace (b +:+ "//") with ((b +:+ "/") +:+ "/") by (by rewrite append_assoc).
    by rewrite replace_slash_at_end_snoc, append_assoc.
  - reflexivity.
  - reflexivity.
Qed.

(** C8. For every token [t] the authenticated headers are a mapping with
    exactly three entries, Content-Type and Accept being
    [application/json] and Authorization being ["Bearer " + t]; the public
    headers are a mapping with exactly two entries, Content-Type and Accept,
    and have no Authorization entry. *)
Theorem C8_header_builders (t : string) :
  size (Helpers.createAuthHeaders t) = 3
  ∧ dom (Helpers.createAuthHeaders t)
    = ({["Content-Type"; "Accept"; "Authorization"]} : gset string)
  ∧ Helpers.createAuthHeaders t !! "Content-Type" = Some "application/json"
  ∧ Helpers.createAuthHeaders t !! "Accept" = Some "application/json"
  ∧ Helpers.createAuthHeaders t !! "Authorization" = Some ("Bearer " +:+ t)
  ∧ size Helpers.createHeaders = 2
  ∧ dom Helpers.createHeaders = ({["Content-Type"; "Accept"]} : gset string)
  ∧ Helpers.createHeaders !! "Content-Type" = Some "application/json"
  ∧ Helpers.createHeaders !! "Accept" = Some "application/json"
  ∧ Helpers.createHeaders !! "Authorization" = None.
Proof.
  unfold Helpers.createAuthHeaders, Helpers.createHeaders.
  split_and!; by vm_compute.
Qed.

(* ================================================================== *)
(** * The response validator *)
(* ================================================================== *)

Section Validator.
Import Client Spec Ops.

(** The error the validator throws for an operation. *)
Local Abbreviation shape_error operation :=
  (ThrownError (new_Error
     ("Invalid API response for " +:+ operation
      +:+ ": response does not match expected BaseResponse shape"))).

Lemma typeof_boolean (x : JsValue) :
  String.eqb (typeof x) "boolean" = true ↔ ∃ b, x = JBoolean b.
Proof.
  destruct x; cbn; split; try done; try (by intros [? ?]); by eauto.
Qed.

(** The guard of [validateResponse] decides [is_envelope]. *)
Lemma validateResponse_cases (v : JsValue) (operation : string) :
  (is_envelope v ∧ validateResponse v operation = Returns v)
  ∨ (¬ is_envelope v ∧ validateResponse v operation = Throws (shape_error operation)).
Proof.
  unfold validateResponse, is_envelope.
  destruct v as [| |b|n|s|xs|props]; cbn -[String.append];
    try (right; split; [intros (? & ? & ? & ?) | ]; done).
  destruct (props !! "success") as [x|] eqn:Hx; cbn -[String.append].
  - destruct (String.eqb (typeof x) "boolean") eqn:Hb.
    + left. apply typeof_boolean in Hb as [b ->].
      split; [|done]. split_and!; eauto.
    + right. split; [|done].
      intros (_ & _ & _ & b & ->). done.
  - right. split; [|done]. by intros (_ & _ & [? ?] & _).
Qed.

Lemma validateResponse_Returns (v r : JsValue) (operation : string) :
  validateResponse v operation = Returns r → r = v ∧ is_envelope v.
Proof.
  destruct (validateResponse_cases v operation) as [[H ->] | [_ ->]]; [|done].
  intros [= <-]. done.
Qed.

End Validator.

(** C1. For every value [v] and operation name, the validator returns [v]
    itself exactly when [v] is non-null, is an object, contains a key
    [success], and the value of that key is a boolean; it never returns
    anything but [v], and it throws exactly when [v] is not such an
    envelope.  In particular it throws for [null], [undefined], every string
    primitive, an object with no [success] key, and an object whose
    [success] is the string ["yes"]; it returns an object whose [success]
    is [true] or [false], whatever else the object holds. *)
Theorem C1_validateResponse_accepts_exactly_envelopes
    (v : JsValue) (operation : string) :
  (Client.validateResponse v operation = Returns v ↔ Spec.is_envelope v)
  ∧ (∀ r, Client.validateResponse v operation = Returns r → r = v)
  ∧ ((∃ e, Client.validateResponse v operation = Throws e) ↔ ¬ Spec.is_envelope v)
  ∧ (∃ e, Client.validateResponse JNull operation = Throws e)
  ∧ (∃ e, Client.validateResponse JUndefined operation = Throws e)
  ∧ (∀ s, ∃ e, Client.validateResponse (JString s) operation = Throws e)
  ∧ (∃ e, Client.validateResponse (Ops.object []) operation = Throws e)
  ∧ (∃ e, Client.validateResponse
            (Ops.object [("success", JString "yes")]) operation = Throws e)
  ∧ (∀ (b : bool) (props : gmap string JsValue),
       Client.validateResponse (JObject (<["success" := JBoolean b]> props)) operation
       = Returns (JObject (<["success" := JBoolean b]> props))).
Proof.
  split_and!.
  - destruct (validateResponse_cases v operation) as [[H ->] | [H ->]];
      split; done.
  - intros r Hr. by apply validateResponse_Returns in Hr as [-> _].
  - destruct (validateResponse_cases v operation) as [[H ->] | [H ->]]; split.
    + by intros [? ?].
    + done.
    + done.
    + eauto.
  - by eexists.
  - by eexists.
  - intros s. by eexists.
  - by eexists.
  - by eexists.
  - intros b props.
    destruct (validateResponse_cases
                (JObject (<["success" := JBoolean b]> props)) operation)
      as [[_ ->] | [H _]]; [done |].
    exfalso. apply H. unfold Spec.is_envelope. cbn.
    rewrite lookup_insert_eq. split_and!; eauto.
Qed.

(** The message the specification words does not occur: for [null] and
    ["getUser"] the thrown message ends in "expected BaseResponse shape". *)
Lemma C4_message_counterexample :
  Client.validateResponse JNull "getUser"
  = Throws (ThrownError (new_Error
      "Invalid API response for getUser: response does not match expected BaseResponse shape"))
  ∧ ¬ (∀ (v : JsValue) (operation : string),
         ¬ Spec.is_envelope v →
         Client.validateResponse v operation
         = Throws (ThrownError (new_Error (Spec.envelope_shape_message operation)))).
Proof.
  split; [reflexivity |].
  intros H. specialize (H JNull "getUser").
  assert (¬ Spec.is_envelope JNull) as Hn by (by intros [? _]).
  specialize (H Hn). vm_compute in H. discriminate H.
Qed.

(** C4 (amended). For every value that is not an envelope and every
    operation name [op], the validator throws an [Error] whose message is
    exactly ["Invalid API response for <op>: response does not match
    expected BaseResponse shape"]. *)
Theorem C4_validateResponse_error_message (v : JsValue) (operation : string) :
  ¬ Spec.is_envelope v →
  Client.validateResponse v operation
  = Throws (ThrownError (new_Error
      ("Invalid API response for " +:+ operation
       +:+ ": response does not match expected BaseResponse shape"))).
Proof.
  intros Hv.
  destruct (validateResponse_cases v operation) as [[H _] | [_ ->]]; done.
Qed.

(** The message thrown for the string body of the tests, under [getUser]. *)
Lemma C4_validateResponse_error_message_witness :
  Client.validateResponse (JString "not an object") "getUser"
  = Throws (ThrownError (new_Error
      "Invalid API response for getUser: response does not match expected BaseResponse shape")).
Proof.
  apply (C4_validateResponse_error_message (JString "not an object") "getUser").
  intros (_ & Hobj & _). vm_compute in Hobj. discriminate Hobj.
Defined.

(* ================================================================== *)
(** * The cache-key factory *)
(* ================================================================== *)

(** The key of the user named ["total"] is the key of the global total. *)
Lemma C3_histories_total_collision :
  Types.QUERY_KEYS.histories "total" = Types.QUERY_KEYS.historiesTotal
  ∧ ¬ (∀ u : string,
         Types.QUERY_KEYS.histories u ≠ Types.QUERY_KEYS.historiesTotal).
Proof.
  split; [reflexivity |].
  intros H. by apply (H "total").
Qed.

(** C3 (amended). The cache-key factory is deterministic: [historiesTotal()]
    is the fixed tuple [("starter","histories","total")], [histories(u)] is
    [("starter","histories",u)], and [user(u)] has ["user"] as its second
    element and [u] as its third.  Keys of different resources compare
    unequal: [histories] and [user] are each injective in the user id, a
    [user] key differs from every [histories] key and from the total key,
    and [histories(u)] differs from [historiesTotal()] for every [u] other
    than ["total"] (for which the two keys are equal). *)
Theorem C3_query_keys (u u1 u2 : string) :
  Types.QUERY_KEYS.historiesTotal = ["starter"; "histories"; "total"]
  ∧ Types.QUERY_KEYS.histories u = ["starter"; "histories"; u]
  ∧ length (Types.QUERY_KEYS.user u) = 3
  ∧ Types.QUERY_KEYS.user u !! 0 = Some "starter"
  ∧ Types.QUERY_KEYS.user u !! 1 = Some "user"
  ∧ Types.QUERY_KEYS.user u !! 2 = Some u
  ∧ (Types.QUERY_KEYS.histories u1 = Types.QUERY_KEYS.histories u2 ↔ u1 = u2)
  ∧ (Types.QUERY_KEYS.user u1 = Types.QUERY_KEYS.user u2 ↔ u1 = u2)
  ∧ Types.QUERY_KEYS.user u1 ≠ Types.QUERY_KEYS.histories u2
  ∧ Types.QUERY_KEYS.user u ≠ Types.QUERY_KEYS.historiesTotal
  ∧ (Types.QUERY_KEYS.histories u = Types.QUERY_KEYS.historiesTotal ↔ u = "total").
Proof.
  unfold Types.QUERY_KEYS.historiesTotal, Types.QUERY_KEYS.histories,
    Types.QUERY_KEYS.user.
  split_and!; try reflexivity; try (split; congruence); congruence.
Qed.

(* ================================================================== *)
(** * The API client over a recording transport *)
(* ================================================================== *)

Section ClientCalls.
Import Client Spec Ops.

Variable respond : Responder.
Variable base : string.

Let client : StarterClient :=
  new_StarterClient base (recordingNetworkClient respond).

(** Each method makes exactly the call of the table, once, and hands the
    body it gets to the validator under its own name. *)
Lemma call_recording (op : Operation) (w : World) :
  call client op w
  = (answer respond base w op,
     new_World (requests w ++ [expected_request base op]) (invalidated w)).
Proof.
  unfold answer.
  destruct op; cbn -[String.append validateResponse Helpers.buildUrl
                       Helpers.createAuthHeaders Helpers.createHeaders];
    unfold expected_request, bind, perform, lift;
    cbn -[String.append validateResponse Helpers.buildUrl
            Helpers.createAuthHeaders Helpers.createHeaders];
    match goal with |- context [respond ?h ?r] => destruct (respond h r) end;
    reflexivity.
Qed.

End ClientCalls.

(** C5. For every client built from a base URL and a transport, each of
    the six operations calls the transport exactly once, with the method
    and body of the operation table, the URL [buildUrl baseUrl path] for the
    table's path with the identifiers interpolated, and the authenticated
    headers for the five user-scoped operations or the public headers for
    the histories total; the create and update bodies are passed as given;
    the body the transport answers with goes to the validator under the
    operation's name, and no cache key is touched. *)
Theorem C5_operations_follow_the_table
    (respond : Responder) (baseUrl : string) (op : Ops.Operation) (w : World) :
  let c := Client.new_StarterClient baseUrl (recordingNetworkClient respond) in
  requests (Ops.call c op w).2 = requests w ++ [Spec.expected_request baseUrl op]
  ∧ method (Spec.expected_request baseUrl op) = Spec.table_method op
  ∧ url (Spec.expected_request baseUrl op)
    = Helpers.buildUrl baseUrl (Spec.table_path op)
  ∧ req_headers (Spec.expected_request baseUrl op)
    = match Spec.table_auth op with
      | Some token => Helpers.createAuthHeaders token
      | None => Helpers.createHeaders
      end
  ∧ req_body (Spec.expected_request baseUrl op) = Spec.table_body op
  ∧ (Ops.call c op w).1 = Spec.answer respond baseUrl w op
  ∧ invalidated (Ops.call c op w).2 = invalidated w.
Proof.
  cbn zeta. rewrite call_recording. by split_and!.
Qed.

(** The rows of the table on the calls of [StarterClient.test.ts]. *)
Example getUser_request :
  Spec.expected_request "https://api.example.com" (Ops.GetUser "user-123" "token-abc")
  = new_Request GET "https://api.example.com/api/v1/users/user-123"
      (Helpers.createAuthHeaders "token-abc") None.
Proof. reflexivity. Qed.

Example getHistories_request :
  Spec.expected_request "https://api.example.com" (Ops.GetHistories "user-123" "token-abc")
  = new_Request GET "https://api.example.com/api/v1/users/user-123/histories"
      (Helpers.createAuthHeaders "token-abc") None.
Proof. reflexivity. Qed.

Example createHistory_request (data : JsValue) :
  Spec.expected_request "https://api.example.com"
    (Ops.CreateHistory "user-123" data "token-abc")
  = new_Request POST "https://api.example.com/api/v1/users/user-123/histories"
      (Helpers.createAuthHeaders "token-abc") (Some data).
Proof. reflexivity. Qed.

Example updateHistory_request (data : JsValue) :
  Spec.expected_request "https://api.example.com"
    (Ops.UpdateHistory "user-123" "hist-456" data "token-abc")
  = new_Request PUT
      "https://api.example.com/api/v1/users/user-123/histories/hist-456"
      (Helpers.createAuthHeaders "token-abc") (Some data).
Proof. reflexivity. Qed.

Example deleteHistory_request :
  Spec.expected_request "https://api.example.com"
    (Ops.DeleteHistory "user-123" "hist-456" "token-abc")
  = new_Request DELETE
      "https://api.example.com/api/v1/users/user-123/histories/hist-456"
      (Helpers.createAuthHeaders "token-abc") None.
Proof. reflexivity. Qed.

Example getHistoriesTotal_request :
  Spec.expected_request "https://api.example.com/" Ops.GetHistoriesTotal
  = new_Request GET "https://api.example.com/api/v1/histories/total"
      Helpers.createHeaders None.
Proof. reflexivity. Qed.

(** The mock transport of the tests records the call of the table. *)
Example createHistory_on_mock (data : JsValue) :
  let ok := Ops.object [("success", JBoolean true); ("data", JNull)] in
  let c := Client.new_StarterClient "https://api.example.com"
             (createMockNetworkClient ok) in
  Client.createHistory c "user-123" data "token-abc" (new_World [] [])
  = (Returns ok,
     new_World
       [new_Request POST "https://api.example.com/api/v1/users/user-123/histories"
          (Helpers.createAuthHeaders "token-abc") (Some data)]
       []).
Proof. reflexivity. Qed.

(** C6. For every client method, when the transport answers with a
    well-formed envelope whose [success] is [false], the method returns
    that envelope and does not throw; when it answers with a body that is
    not an envelope, the method throws the validator's error. *)
Theorem C6_business_failures_are_returned
    (respond : Responder) (baseUrl : string) (op : Ops.Operation) (w : World)
    (body : JsValue) :
  respond (requests w) (Spec.expected_request baseUrl op) = Returns body →
  let c := Client.new_StarterClient baseUrl (recordingNetworkClient respond) in
  (Spec.is_envelope body →
   get_property body K_success = JBoolean false →
   (Ops.call c op w).1 = Returns body)
  ∧ (¬ Spec.is_envelope body →
     (Ops.call c op w).1
     = Throws (ThrownError (new_Error
         ("Invalid API response for " +:+ Ops.operation_name op
          +:+ ": response does not match expected BaseResponse shape")))).
Proof.
  intros Hbody. cbn zeta. rewrite call_recording. cbn [fst].
  unfold Spec.answer. rewrite Hbody.
  destruct (validateResponse_cases body (Ops.operation_name op))
    as [[H ->] | [H ->]]; split; done.
Qed.

(** The "Not found" envelope of the tests is returned by
    [getHistoriesTotal]. *)
Lemma C6_business_failures_are_returned_witness :
  let body := Ops.object [("success", JBoolean false); ("error", JString "Not found");
                          ("timestamp", JString "2024-01-01T00:00:00Z")] in
  let c := Client.new_StarterClient "https://api.example.com"
             (recordingNetworkClient (fun _ _ => Returns body)) in
  (Ops.call c Ops.GetHistoriesTotal (new_World [] [])).1 = Returns body.
Proof.
  cbn zeta.
  refine (proj1 (C6_business_failures_are_returned
                   (fun _ _ => Returns _) "https://api.example.com"
                   Ops.GetHistoriesTotal (new_World [] []) _ eq_refl) _ _).
  - unfold Spec.is_envelope. split_and!; [done | reflexivity | | ].
    + vm_compute. eauto.
    + exists false. reflexivity.
  - reflexivity.
Defined.

(* ================================================================== *)
(** * The write-invalidate wiring of the history-list hook *)
(* ================================================================== *)

Section Writes.
Import Types Hooks Spec Ops.

(** A read makes its one [GET] call and touches no cache key. *)
Lemma run_read_world (r : Read) (w : World) :
  (run_read r w).2
  = new_World (requests w ++ [read_request r]) (invalidated w).
Proof.
  destruct r as [respond baseUrl userId token | respond baseUrl];
    cbn [run_read read_request].
  - pose proof (call_recording respond baseUrl
                  (GetHistories (non_null userId) (non_null token)) w) as Hc.
    cbn [call] in Hc. by rewrite Hc.
  - pose proof (call_recording respond baseUrl GetHistoriesTotal w) as Hc.
    cbn [call] in Hc. by rewrite Hc.
Qed.

Lemma run_for_cache_reads (rs : list Read) (w : World) :
  run_for_cache (map run_read rs) w
  = new_World (requests w ++ map read_request rs) (invalidated w).
Proof.
  revert w. induction rs as [|r rs IH]; intros w; cbn [map run_for_cache].
  - destruct w. cbn. by rewrite app_nil_r.
  - rewrite run_read_world, IH. cbn [requests invalidated].
    by rewrite <- app_assoc.
Qed.

Lemma read_request_is_GET (r : Read) : method (read_request r) = GET.
Proof. by destruct r. Qed.

Lemma invalidateQueries_run (engine : Engine) (queryKey : QueryKey) (w : World) :
  invalidateQueries (reaction engine) queryKey w
  = (Returns tt,
     new_World
       (requests w
        ++ map read_request
             (refetched engine
                (new_World (requests w) (invalidated w ++ [queryKey])) queryKey))
       (invalidated w ++ [queryKey])).
Proof.
  unfold invalidateQueries, reaction. cbn zeta. by rewrite run_for_cache_reads.
Qed.

(** The keys one run of [invalidate] passes to the caching engine, and the
    calls the engine's refetches add: [GET] calls only. *)
Lemma invalidate_run (engine : Engine) (userId : Nullable) (w : World) :
  ∃ refetches,
    invalidate engine userId w
    = (Returns tt,
       new_World (requests w ++ refetches)
         (invalidated w
          ++ (if nullable_truthy userId
              then [QUERY_KEYS.histories (non_null userId)] else [])
          ++ [QUERY_KEYS.historiesTotal]))
    ∧ Forall (λ r, method r = GET) refetches.
Proof.
  unfold invalidate, bind.
  destruct (nullable_truthy userId).
  - rewrite invalidateQueries_run, invalidateQueries_run.
    cbn [requests invalidated]. eexists. split.
    + rewrite <- !app_assoc. reflexivity.
    + apply Forall_app. split; apply Forall_forall;
        intros r' (r & -> & _)%list_elem_of_fmap; apply read_request_is_GET.
  - unfold ret. rewrite invalidateQueries_run. cbn [requests invalidated].
    eexists. split; [reflexivity |].
    apply Forall_forall.
    intros r' (r & -> & _)%list_elem_of_fmap. apply read_request_is_GET.
Qed.

(** With an engine that refetches nothing, [invalidate] makes no call. *)
Lemma invalidate_quiet (engine : Engine) (userId : Nullable) (w : World) :
  (∀ w' queryKey, refetched engine w' queryKey = []) →
  invalidate engine userId w
  = (Returns tt,
     new_World (requests w)
       (invalidated w
        ++ (if nullable_truthy userId
            then [QUERY_KEYS.histories (non_null userId)] else [])
        ++ [QUERY_KEYS.historiesTotal])).
Proof.
  intros Hquiet. unfold invalidate, bind.
  destruct (nullable_truthy userId).
  - rewrite invalidateQueries_run, invalidateQueries_run, !Hquiet.
    cbn [requests invalidated map]. by rewrite !app_nil_r, <- app_assoc.
  - unfold ret. rewrite invalidateQueries_run, Hquiet.
    cbn [requests invalidated map]. by rewrite app_nil_r.
Qed.

Variable respond : Responder.
Variable base : string.
Variables userId token : Nullable.
Variable options_enabled : option bool.
Variable engine : Engine.

Let hook : UseHistoriesReturn :=
  useHistories (recordingNetworkClient respond) base userId token
    options_enabled engine.

(** A write is the client call it stands for, followed, when that call
    returned an envelope whose [success] is truthy, by the [invalidate] of
    the latest render. *)
Lemma write_run (wr : Write) (w : World) :
  let w1 :=
    new_World
      (requests w ++ [expected_request base (write_operation userId token wr)])
      (invalidated w) in
  write hook wr w
  = match answer respond base w (write_operation userId token wr) with
    | Returns env =>
        (Returns env,
         if truthy (get_property env K_success)
         then (invalidate engine (latest_userId engine userId) w1).2
         else w1)
    | Throws e => (Throws e, w1)
    end.
Proof.
  cbn zeta.
  pose proof (call_recording respond base (write_operation userId token wr) w) as Hc.
  destruct wr; cbn [write_operation call] in Hc;
    cbn [write hook useHistories createHistory updateHistory deleteHistory];
    unfold mutateAsync, bind at 1; rewrite Hc;
    (destruct (answer respond base w _) as [env|e]; [|done]);
    unfold bind, onSuccess, ret;
    (destruct (truthy (get_property env K_success)); [|done]);
    cbn [write_operation];
    match goal with
    | |- context [invalidate ?g ?u ?w1] =>
        destruct (invalidate_run g u w1) as (refetches & -> & _)
    end; done.
Qed.

End Writes.




(** A failed update on the same hook invalidates nothing. *)
Example failed_update_invalidates_nothing :
  let failed := Ops.object [("success", JBoolean false); ("error", JString "Not found")] in
  let base := "https://api.example.com" in
  let h := Hooks.useHistories (createMockNetworkClient failed)
             base (Some "user-123") (Some "tok") None
             (Hooks.sole_hook (λ _ _, Returns failed) base
                (Some "user-123") (Some "tok") None) in
  Hooks.updateHistory h "hist-456" (Ops.object [("value", JNumber 200)]) (new_World [] [])
  = (Returns failed,
     new_World
       [new_Request PUT
          "https://api.example.com/api/v1/users/user-123/histories/hist-456"
          (Helpers.createAuthHeaders "tok")
          (Some (Ops.object [("value", JNumber 200)]))]
       []).
Proof. reflexivity. Qed.

(** A confirmed update on a hook whose read is enabled and loaded: the
    engine runs the read again when its key is invalidated. *)
Example confirmed_update_refetches_the_read :
  let ok := Ops.object [("success", JBoolean true); ("data", JNull)] in
  let base := "https://api.example.com" in
  let h := Hooks.useHistories (createMockNetworkClient ok)
             base (Some "user-123") (Some "tok") None
             (Hooks.sole_hook (λ _ _, Returns ok) base
                (Some "user-123") (Some "tok") None) in
  Hooks.updateHistory h "hist-456" (Ops.object [("value", JNumber 200)]) (new_World [] [])
  = (Returns ok,
     new_World
       [new_Request PUT
          "https://api.example.com/api/v1/users/user-123/histories/hist-456"
          (Helpers.createAuthHeaders "tok")
          (Some (Ops.object [("value", JNumber 200)]));
        new_Request GET
          "https://api.example.com/api/v1/users/user-123/histories"
          (Helpers.createAuthHeaders "tok") None]
       [Types.QUERY_KEYS.histories "user-123"; Types.QUERY_KEYS.historiesTotal]).
Proof. reflexivity. Qed.

(* ================================================================== *)
(** * The error-message formatter *)
(* ================================================================== *)

Section Formatter.
Import Helpers Spec Ops.

Variable number_to_string : float → string.
Variable type_error : Error.

(** The optional chain [resp?.data?.k] reads the field [data.k], and is
    [undefined] when it is absent. *)
Lemma optional_chain (v : JsValue) (k : PropertyKey) :
  optional_get (optional_get v K_data) k = default JUndefined (data_field v k).
Proof.
  unfold data_field, field.
  destruct v as [| | | | | |props]; try reflexivity.
  cbn. destruct (props !! "data") as [d|]; [|reflexivity].
  cbn. by destruct d.
Qed.

Lemma or_else_field (o : option JsValue) (fallback : JsValue) :
  or_else (default JUndefined o) fallback
  = match truthy_field o with Some x => x | None => fallback end.
Proof.
  unfold or_else, truthy_field.
  destruct o as [x|]; [|reflexivity]. cbn. by destruct (truthy x).
Qed.

(** The message is chosen by truthiness, and then converted. *)
Lemma handleApiError_by_truthiness (v : JsValue) (operation : string) :
  handleApiError number_to_string type_error v operation
  = match to_string number_to_string type_error (message_if_truthy v) with
    | Returns printed =>
        Returns (new_Error ("Failed to " +:+ operation +:+ ": " +:+ printed))
    | Throws e => Throws e
    end.
Proof.
  unfold handleApiError, message_if_truthy. cbn zeta.
  by rewrite !optional_chain, !or_else_field.
Qed.

Lemma truthy_field_string (o : option JsValue) (s : string) :
  o = Some (JString s) → s ≠ "" → truthy_field o = Some (JString s).
Proof.
  intros -> Hs. cbn. apply String.eqb_neq in Hs. by rewrite Hs.
Qed.

(** The conversion of a plain object is decided by its own [toString]
    entry. *)
Lemma to_string_object (props : gmap string JsValue) :
  to_string number_to_string type_error (JObject props)
  = if bool_decide (is_Some (props !! "toString"))
    then Throws (ThrownError type_error)
    else Returns "[object Object]".
Proof. reflexivity. Qed.

End Formatter.

(** An [error] field that is present but empty is not the message, and an
    [error] field that is an object with an own [toString] entry makes
    [handleApiError] throw. *)
Lemma C9_present_empty_error_counterexample :
  let input := Ops.object [("data", Ops.object [("error", JString "")])] in
  let unprintable :=
    Ops.object [("data", Ops.object [("error", Ops.object [("toString", JString "x")])])] in
  Spec.message_if_present input = JString ""
  ∧ (∀ nts te, Helpers.handleApiError nts te input "fetch"
               = Returns (new_Error "Failed to fetch: Unknown error"))
  ∧ (∀ nts te, Helpers.handleApiError nts te unprintable "fetch"
               = Throws (ThrownError te))
  ∧ ¬ (∀ (nts : float → string) (te : Error) (v : JsValue) (operation : string),
         ∃ printed,
           to_string nts te (Spec.message_if_present v) = Returns printed
           ∧ Helpers.handleApiError nts te v operation
             = Returns (new_Error ("Failed to " +:+ operation +:+ ": " +:+ printed)))
  ∧ ¬ (∀ (nts : float → string) (te : Error) (v : JsValue) (operation : string),
         ∃ e, Helpers.handleApiError nts te v operation = Returns e).
Proof.
  cbn zeta.
  split_and!; [reflexivity | intros nts te; reflexivity
              | intros nts te; reflexivity | |].
  - intros H.
    destruct (H (λ _, "") (new_Error "")
                (Ops.object [("data", Ops.object [("error", JString "")])])
                "fetch") as (printed & Hp & He).
    vm_compute in Hp. injection Hp as <-. vm_compute in He. discriminate He.
  - intros H.
    destruct (H (λ _, "") (new_Error "")
                (Ops.object [("data", Ops.object
                                [("error", Ops.object [("toString", JString "x")])])])
                "fetch") as (e & He).
    vm_compute in He. discriminate He.
Qed.

(** C9 (amended). For every input value and operation name [op],
    [handleApiError] selects as message the input's [data.error] field if
    it is truthy, else its [data.message] field if it is truthy, else
    ["Unknown error"], and converts it to a string as a template literal
    does: it returns an error whose message is ["Failed to <op>: "]
    followed by that string, and it throws the engine's [TypeError] when the
    conversion throws, as it does for a plain object with an own [toString]
    entry.  A non-empty [error] string is the message; failing that, a
    non-empty [message] string is; failing both, ["Unknown error"] is.
    [null], [undefined] and inputs without the fields give
    ["Unknown error"] without failing; and the two calls of the
    specification give ["Failed to fetch histories: Not authorized"] and
    ["Failed to fetch: Unknown error"]. *)
Theorem C9_handleApiError_message
    (number_to_string : float → string) (type_error : Error)
    (v : JsValue) (operation : string) :
  Helpers.handleApiError number_to_string type_error v operation
  = match to_string number_to_string type_error (Spec.message_if_truthy v) with
    | Returns printed =>
        Returns (new_Error ("Failed to " +:+ operation +:+ ": " +:+ printed))
    | Throws e => Throws e
    end
  ∧ (∀ e, Spec.data_field v K_error = Some (JString e) → e ≠ "" →
       Helpers.handleApiError number_to_string type_error v operation
       = Returns (new_Error ("Failed to " +:+ operation +:+ ": " +:+ e)))
  ∧ (∀ m, Spec.truthy_field (Spec.data_field v K_error) = None →
       Spec.data_field v K_message = Some (JString m) → m ≠ "" →
       Helpers.handleApiError number_to_string type_error v operation
       = Returns (new_Error ("Failed to " +:+ operation +:+ ": " +:+ m)))
  ∧ (Spec.truthy_field (Spec.data_field v K_error) = None →
     Spec.truthy_field (Spec.data_field v K_message) = None →
     Helpers.handleApiError number_to_string type_error v operation
     = Returns (new_Error ("Failed to " +:+ operation +:+ ": Unknown error")))
  ∧ (∀ props, Spec.data_field v K_error = Some (JObject props) →
       is_Some (props !! "toString") →
       Helpers.handleApiError number_to_string type_error v operation
       = Throws (ThrownError type_error))
  ∧ Helpers.handleApiError number_to_string type_error JNull operation
    = Returns (new_Error ("Failed to " +:+ operation +:+ ": Unknown error"))
  ∧ Helpers.handleApiError number_to_string type_error JUndefined operation
    = Returns (new_Error ("Failed to " +:+ operation +:+ ": Unknown error"))
  ∧ Helpers.handleApiError number_to_string type_error
      (Ops.object [("data", Ops.object [])]) operation
    = Returns (new_Error ("Failed to " +:+ operation +:+ ": Unknown error"))
  ∧ Helpers.handleApiError number_to_string type_error
      (Ops.object [("data", Ops.object [("error", JString "Not authorized")])])
      "fetch histories"
    = Returns (new_Error "Failed to fetch histories: Not authorized")
  ∧ Helpers.handleApiError number_to_string type_error JNull "fetch"
    = Returns (new_Error "Failed to fetch: Unknown error").
Proof.
  split_and!; try reflexivity.
  - apply handleApiError_by_truthiness.
  - intros e He Hne. rewrite handleApiError_by_truthiness.
    unfold Spec.message_if_truthy.
    by rewrite (truthy_field_string _ e He Hne).
  - intros m He Hm Hne. rewrite handleApiError_by_truthiness.
    unfold Spec.message_if_truthy.
    by rewrite He, (truthy_field_string _ m Hm Hne).
  - intros He Hm. rewrite handleApiError_by_truthiness.
    unfold Spec.message_if_truthy. by rewrite He, Hm.
  - intros props He Hts. rewrite handleApiError_by_truthiness.
    unfold Spec.message_if_truthy. rewrite He. cbn [Spec.truthy_field truthy].
    rewrite to_string_object. by rewrite bool_decide_eq_true_2.
Qed.

(** Without an [error] field, a non-empty [message] field is the message. *)
Lemma C9_handleApiError_message_witness :
  Helpers.handleApiError (λ _, "") (new_Error "Cannot convert object to primitive value")
    (Ops.object [("data", Ops.object [("message", JString "Server error")])])
    "create history"
  = Returns (new_Error "Failed to create history: Server error").
Proof.
  refine (proj1 (proj2 (proj2 (C9_handleApiError_message (λ _, "")
            (new_Error "Cannot convert object to primitive value")
            (Ops.object [("data", Ops.object [("message", JString "Server error")])])
            "create history")))
            "Server error" eq_refl eq_refl _).
  intros H. discriminate H.
Defined.

(** C10. [handleApiError] selects the message by truthiness: for every
    operation name [op], when the input's [data.error] field is the empty
    string it is skipped, and the outcome is that of the fallback: the
    message is [data.message] when that is truthy (a non-empty [message]
    string is the message) and ["Unknown error"] when [data.message] is
    absent or empty. *)
Theorem C10_empty_error_falls_back
    (number_to_string : float → string) (type_error : Error)
    (v : JsValue) (operation : string) :
  Spec.data_field v K_error = Some (JString "") →
  Helpers.handleApiError number_to_string type_error v operation
  = match to_string number_to_string type_error
            (match Spec.truthy_field (Spec.data_field v K_message) with
             | Some m => m
             | None => JString "Unknown error"
             end) with
    | Returns printed =>
        Returns (new_Error ("Failed to " +:+ operation +:+ ": " +:+ printed))
    | Throws e => Throws e
    end
  ∧ (∀ m, Spec.data_field v K_message = Some (JString m) → m ≠ "" →
       Helpers.handleApiError number_to_string type_error v operation
       = Returns (new_Error ("Failed to " +:+ operation +:+ ": " +:+ m)))
  ∧ (Spec.data_field v K_message = None
     ∨ Spec.data_field v K_message = Some (JString "") →
     Helpers.handleApiError number_to_string type_error v operation
     = Returns (new_Error ("Failed to " +:+ operation +:+ ": Unknown error"))).
Proof.
  intros He. rewrite handleApiError_by_truthiness.
  unfold Spec.message_if_truthy. rewrite He. cbn [Spec.truthy_field truthy String.eqb negb].
  split_and!.
  - done.
  - intros m Hm Hne. by rewrite (truthy_field_string _ m Hm Hne).
  - intros [-> | ->]; reflexivity.
Qed.

(** An empty [error] and no [message] give ["Unknown error"]. *)
Lemma C10_empty_error_falls_back_witness :
  Helpers.handleApiError (λ _, "") (new_Error "Cannot convert object to primitive value")
    (Ops.object [("data", Ops.object [("error", JString "")])]) "fetch"
  = Returns (new_Error "Failed to fetch: Unknown error").
Proof.
  refine (proj2 (proj2 (C10_empty_error_falls_back (λ _, "")
            (new_Error "Cannot convert object to primitive value")
            (Ops.object [("data", Ops.object [("error", JString "")])])
            "fetch" eq_refl)) _).
  left. reflexivity.
Defined.

(* ================================================================== *)
(** * Further properties of the helpers *)
(* ================================================================== *)

Lemma ends_with_slash_snoc (s : string) (c : ascii) :
  Spec.ends_with_slash (s +:+ String c "") = Ascii.eqb c "/".
Proof.
  unfold Spec.ends_with_slash.
  rewrite length_snoc_pred, substring_last.
  destruct (Ascii.eqb c "/") eqn:Hc.
  - apply Ascii.eqb_eq in Hc as ->. reflexivity.
  - apply String.eqb_neq. apply Ascii.eqb_neq in Hc. congruence.
Qed.

Lemma length_append (s t : string) :
  String.length (s +:+ t) = String.length s + String.length t.
Proof.
  induction s as [|x s IH]; [done |].
  rewrite append_cons. cbn [String.length]. by rewrite IH.
Qed.

(** X1. A base written with one more trailing slash gives the same URL
    exactly when the base did not already end in a slash: one trailing
    slash is absorbed, a second one is kept. *)
Theorem buildUrl_absorbs_one_slash_only (b p : string) :
  Helpers.buildUrl (b +:+ "/") p = Helpers.buildUrl b p
  ↔ Spec.ends_with_slash b = false.
Proof.
  unfold Helpers.buildUrl. cbn zeta.
  rewrite replace_slash_at_end_snoc, replace_slash_at_end_spec.
  unfold Spec.strip_one_trailing_slash.
  destruct (string_snoc_cases b) as [-> | (s & c & ->)]; [done |].
  rewrite ends_with_slash_snoc, length_snoc_pred, substring_init.
  destruct (Ascii.eqb c "/") eqn:Hc; [|done].
  split; [|done]. intros H. exfalso.
  apply (f_equal String.length) in H.
  rewrite !length_append in H. cbn in H. lia.
Qed.

(** X2. The authenticated headers determine the token: two tokens give the
    same header set only when they are the same token. *)
Theorem createAuthHeaders_injective (t1 t2 : string) :
  Helpers.createAuthHeaders t1 = Helpers.createAuthHeaders t2 ↔ t1 = t2.
Proof.
  split; [|by intros ->].
  intros H. apply (f_equal (λ m : gmap string string, m !! "Authorization")) in H.
  unfold Helpers.createAuthHeaders in H. rewrite !lookup_insert_eq in H.
  apply (inj Some) in H. by apply (inj (String.app "Bearer ")) in H.
Qed.

Section FormatterEdges.
Import Helpers Spec.
Variable number_to_string : float → string.

Lemma data_field_without_object (v : JsValue) (k : PropertyKey) :
  (∀ props, field v K_data ≠ Some (JObject props)) → data_field v k = None.
Proof.
  intros H. unfold data_field.
  destruct (field v K_data) as [d|]; [|done].
  destruct d; try done. by destruct (H props).
Qed.

End FormatterEdges.

(** X3. When the input has no [data] field that is a plain object (the
    input is a primitive, an array, [null], or its [data] is missing, [null],
    a string, a number or an array), the message is
    ["Failed to <op>: Unknown error"]. *)
Theorem handleApiError_without_object_data
    (number_to_string : float → string) (type_error : Error)
    (v : JsValue) (operation : string) :
  (∀ props, Spec.field v K_data ≠ Some (JObject props)) →
  Helpers.handleApiError number_to_string type_error v operation
  = Returns (new_Error ("Failed to " +:+ operation +:+ ": Unknown error")).
Proof.
  intros H. rewrite handleApiError_by_truthiness.
  unfold Spec.message_if_truthy.
  by rewrite !(data_field_without_object _ _ H).
Qed.

(** The [data] of the input is a string. *)
Lemma handleApiError_without_object_data_witness :
  Helpers.handleApiError (λ _, "") (new_Error "Cannot convert object to primitive value")
    (Ops.object [("data", JString "Not authorized")]) "fetch"
  = Returns (new_Error "Failed to fetch: Unknown error").
Proof.
  apply (handleApiError_without_object_data (λ _, "")
           (new_Error "Cannot convert object to primitive value")
           (Ops.object [("data", JString "Not authorized")]) "fetch").
  intros props H. vm_compute in H. discriminate H.
Defined.

(** X4. A truthy [data.error] that is not a string is printed as a
    template literal prints it: a plain object without an own [toString]
    entry as ["[object Object]"], [true] as ["true"], an array of two
    strings as the two joined by a comma, and the empty array (which is
    truthy) as nothing at all; a plain object with an own [toString] entry
    cannot be printed, and [handleApiError] throws the engine's
    [TypeError]. *)
Theorem handleApiError_non_string_error
    (number_to_string : float → string) (type_error : Error)
    (v : JsValue) (operation : string) :
  (∀ props, Spec.data_field v K_error = Some (JObject props) →
     props !! "toString" = None →
     Helpers.handleApiError number_to_string type_error v operation
     = Returns (new_Error ("Failed to " +:+ operation +:+ ": [object Object]")))
  ∧ (∀ props, Spec.data_field v K_error = Some (JObject props) →
     is_Some (props !! "toString") →
     Helpers.handleApiError number_to_string type_error v operation
     = Throws (ThrownError type_error))
  ∧ (Spec.data_field v K_error = Some (JBoolean true) →
     Helpers.handleApiError number_to_string type_error v operation
     = Returns (new_Error ("Failed to " +:+ operation +:+ ": true")))
  ∧ (∀ a b, Spec.data_field v K_error = Some (JArray [JString a; JString b]) →
     Helpers.handleApiError number_to_string type_error v operation
     = Returns (new_Error ("Failed to " +:+ operation +:+ ": " +:+ a +:+ "," +:+ b)))
  ∧ (Spec.data_field v K_error = Some (JArray []) →
     Helpers.handleApiError number_to_string type_error v operation
     = Returns (new_Error ("Failed to " +:+ operation +:+ ": "))).
Proof.
  split_and!.
  - intros props H Hts. rewrite handleApiError_by_truthiness.
    unfold Spec.message_if_truthy. rewrite H. cbn [Spec.truthy_field truthy].
    rewrite to_string_object, Hts.
    by rewrite bool_decide_eq_false_2 by (by intros [? ?]).
  - intros props H Hts. rewrite handleApiError_by_truthiness.
    unfold Spec.message_if_truthy. rewrite H. cbn [Spec.truthy_field truthy].
    by rewrite to_string_object, bool_decide_eq_true_2.
  - intros H. rewrite handleApiError_by_truthiness.
    unfold Spec.message_if_truthy. by rewrite H.
  - intros a b H. rewrite handleApiError_by_truthiness.
    unfold Spec.message_if_truthy. by rewrite H.
  - intros H. rewrite handleApiError_by_truthiness.
    unfold Spec.message_if_truthy. by rewrite H.
Qed.

(** An [error] that is an object with a [code]. *)
Lemma handleApiError_non_string_error_witness :
  Helpers.handleApiError (λ _, "") (new_Error "Cannot convert object to primitive value")
    (Ops.object [("data", Ops.object [("error", Ops.object [("code", JString "E42")])])])
    "fetch"
  = Returns (new_Error "Failed to fetch: [object Object]").
Proof.
  refine (proj1 (handleApiError_non_string_error (λ _, "")
            (new_Error "Cannot convert object to primitive value")
            (Ops.object [("data", Ops.object [("error", Ops.object [("code", JString "E42")])])])
            "fetch") (list_to_map [("code", JString "E42")]) eq_refl eq_refl).
Defined.

(** X5. When [data.error] and [data.message] are each absent or a string
    (as the declared type of the input says), the message after
    ["Failed to <op>: "] is never empty. *)
Theorem handleApiError_message_nonempty
    (number_to_string : float → string) (type_error : Error)
    (v : JsValue) (operation : string) :
  (Spec.data_field v K_error = None
   ∨ ∃ s, Spec.data_field v K_error = Some (JString s)) →
  (Spec.data_field v K_message = None
   ∨ ∃ s, Spec.data_field v K_message = Some (JString s)) →
  ∃ m, m ≠ ""
       ∧ Helpers.handleApiError number_to_string type_error v operation
         = Returns (new_Error ("Failed to " +:+ operation +:+ ": " +:+ m)).
Proof.
  intros He Hm. rewrite handleApiError_by_truthiness.
  unfold Spec.message_if_truthy.
  assert (∀ o, (o = None ∨ ∃ s, o = Some (JString s)) →
               Spec.truthy_field o = None
               ∨ ∃ s, s ≠ "" ∧ Spec.truthy_field o = Some (JString s)) as Hcase.
  { intros o [-> | [s ->]]; [by left |].
    cbn. destruct (String.eqb s "") eqn:Hs; [by left | right].
    exists s. split; [by apply String.eqb_neq | done]. }
  destruct (Hcase _ He) as [-> | (e & Hne & ->)].
  - destruct (Hcase _ Hm) as [-> | (m & Hne & ->)].
    + by exists "Unknown error".
    + by exists m.
  - by exists e.
Qed.

(** Both fields are present and empty. *)
Lemma handleApiError_message_nonempty_witness :
  ∃ m, m ≠ ""
       ∧ Helpers.handleApiError (λ _, "")
           (new_Error "Cannot convert object to primitive value")
           (Ops.object [("data", Ops.object [("error", JString "");
                                             ("message", JString "")])])
           "fetch"
         = Returns (new_Error ("Failed to " +:+ "fetch" +:+ ": " +:+ m)).
Proof.
  apply (handleApiError_message_nonempty (λ _, "")
           (new_Error "Cannot convert object to primitive value")
           (Ops.object [("data", Ops.object [("error", JString "");
                                             ("message", JString "")])])
           "fetch").
  - right. exists "". reflexivity.
  - right. exists "". reflexivity.
Defined.

(* ================================================================== *)
(** * Further properties of the validator and the client *)
(* ================================================================== *)

Lemma append_inj_r (s1 s2 t : string) : s1 +:+ t = s2 +:+ t → s1 = s2.
Proof.
  revert s2. induction s1 as [|x s1 IH]; intros [|y s2] H.
  - done.
  - apply (f_equal String.length) in H.
    rewrite !length_append in H. cbn in H. lia.
  - apply (f_equal String.length) in H.
    rewrite !length_append in H. cbn in H. lia.
  - rewrite !append_cons in H. injection H as -> H. by rewrite (IH _ H).
Qed.

Lemma replace_slash_at_end_no_slash (b : string) :
  Spec.ends_with_slash b = false → Helpers.replace_slash_at_end b = b.
Proof.
  intros H. rewrite replace_slash_at_end_spec.
  unfold Spec.strip_one_trailing_slash. by rewrite H.
Qed.

(** X6. The validator's error names the operation: for a body that is not
    an envelope, two different operation names give two different errors. *)
Theorem validateResponse_error_names_operation
    (v : JsValue) (op1 op2 : string) :
  ¬ Spec.is_envelope v →
  op1 ≠ op2 →
  Client.validateResponse v op1 ≠ Client.validateResponse v op2.
Proof.
  intros Hv Hne.
  destruct (validateResponse_cases v op1) as [[H _] | [_ ->]]; [done |].
  destruct (validateResponse_cases v op2) as [[H _] | [_ ->]]; [done |].
  intros [= H]. apply Hne.
  exact (append_inj_r op1 op2
           ": response does not match expected BaseResponse shape" H).
Qed.

(** The [null] body under [getUser] and under [getHistories]. *)
Lemma validateResponse_error_names_operation_witness :
  Client.validateResponse JNull "getUser"
  ≠ Client.validateResponse JNull "getHistories".
Proof.
  apply (validateResponse_error_names_operation JNull "getUser" "getHistories").
  - by intros [? _].
  - intros H. discriminate H.
Defined.

(** X7. Acceptance does not depend on the operation name, and validation
    is idempotent: a value returned under one operation name is returned
    unchanged under every other. *)
Theorem validateResponse_accepts_under_every_name
    (v r : JsValue) (operation : string) :
  Client.validateResponse v operation = Returns r →
  ∀ operation', Client.validateResponse v operation' = Returns v
                ∧ Client.validateResponse r operation' = Returns r.
Proof.
  intros H operation'. apply validateResponse_Returns in H as [-> Hv].
  by destruct (validateResponse_cases v operation') as [[_ ->] | [? _]].
Qed.

(** The success envelope of the tests, validated for [getUser] and then
    for [getHistories]. *)
Lemma validateResponse_accepts_under_every_name_witness :
  let ok := Ops.object [("success", JBoolean true); ("data", JNull)] in
  Client.validateResponse ok "getHistories" = Returns ok.
Proof.
  exact (proj1 (validateResponse_accepts_under_every_name
                  (Ops.object [("success", JBoolean true); ("data", JNull)])
                  (Ops.object [("success", JBoolean true); ("data", JNull)])
                  "getUser" eq_refl "getHistories")).
Defined.

(** X8. A failure of the transport is passed on unmodified by each of the
    six methods: the method throws what the transport threw, the call was
    made once and is not retried, and no cache key is touched. *)
Theorem transport_failure_is_passed_on
    (respond : Responder) (baseUrl : string) (op : Ops.Operation) (w : World)
    (e : Exception) :
  respond (requests w) (Spec.expected_request baseUrl op) = Throws e →
  Ops.call (Client.new_StarterClient baseUrl (recordingNetworkClient respond)) op w
  = (Throws e,
     new_World (requests w ++ [Spec.expected_request baseUrl op]) (invalidated w)).
Proof.
  intros H. rewrite call_recording. unfold Spec.answer. by rewrite H.
Qed.

(** The transport rejects with a thrown string. *)
Lemma transport_failure_is_passed_on_witness :
  Ops.call
    (Client.new_StarterClient "https://api.example.com"
       (recordingNetworkClient (λ _ _, Throws (ThrownValue (JString "offline")))))
    (Ops.GetUser "user-123" "tok") (new_World [] [])
  = (Throws (ThrownValue (JString "offline")),
     new_World
       [Spec.expected_request "https://api.example.com" (Ops.GetUser "user-123" "tok")]
       []).
Proof.
  exact (transport_failure_is_passed_on
           (λ _ _, Throws (ThrownValue (JString "offline")))
           "https://api.example.com" (Ops.GetUser "user-123" "tok")
           (new_World [] []) (ThrownValue (JString "offline")) eq_refl).
Defined.

(** X9. A client built on a base URL written with one trailing slash
    behaves, for each of the six operations, as the client built on the
    base without it: same transport call, same outcome. *)
Theorem client_ignores_one_trailing_slash
    (respond : Responder) (baseUrl : string) (op : Ops.Operation) (w : World) :
  Spec.ends_with_slash baseUrl = false →
  Ops.call (Client.new_StarterClient (baseUrl +:+ "/")
              (recordingNetworkClient respond)) op w
  = Ops.call (Client.new_StarterClient baseUrl
                (recordingNetworkClient respond)) op w.
Proof.
  intros H. rewrite !call_recording.
  assert (Spec.expected_request (baseUrl +:+ "/") op
          = Spec.expected_request baseUrl op) as Hreq.
  { unfold Spec.expected_request, Helpers.buildUrl. cbn zeta.
    by rewrite replace_slash_at_end_snoc, (replace_slash_at_end_no_slash _ H). }
  unfold Spec.answer. by rewrite Hreq.
Qed.

(** The base of the tests, with and without its trailing slash. *)
Lemma client_ignores_one_trailing_slash_witness :
  let ok := Ops.object [("success", JBoolean true); ("data", JNull)] in
  Ops.call (Client.new_StarterClient ("https://api.example.com" +:+ "/")
              (recordingNetworkClient (λ _ _, Returns ok)))
    Ops.GetHistoriesTotal (new_World [] [])
  = Ops.call (Client.new_StarterClient "https://api.example.com"
                (recordingNetworkClient (λ _ _, Returns ok)))
      Ops.GetHistoriesTotal (new_World [] []).
Proof.
  exact (client_ignores_one_trailing_slash
           (λ _ _, Returns (Ops.object [("success", JBoolean true); ("data", JNull)]))
           "https://api.example.com" Ops.GetHistoriesTotal (new_World [] []) eq_refl).
Defined.

(** X10. Identifiers are interpolated into the path as they are, without
    encoding: [getUser] for the user id [u + "/histories"] makes the very
    transport call [getHistories] makes for [u], leaves the same world
    behind, and returns an envelope exactly when [getHistories] returns
    it. *)
Theorem getUser_path_is_not_encoded
    (respond : Responder) (baseUrl u token : string) (w : World) :
  let c := Client.new_StarterClient baseUrl (recordingNetworkClient respond) in
  (Client.getUser c (u +:+ "/histories") token w).2
  = (Client.getHistories c u token w).2
  ∧ requests (Client.getUser c (u +:+ "/histories") token w).2
    = requests w
      ++ [new_Request GET
            (Helpers.buildUrl baseUrl ("/api/v1/users/" +:+ u +:+ "/histories"))
            (Helpers.createAuthHeaders token) None]
  ∧ ∀ env, (Client.getUser c (u +:+ "/histories") token w).1 = Returns env
           ↔ (Client.getHistories c u token w).1 = Returns env.
Proof.
  cbn zeta.
  pose proof (call_recording respond baseUrl (Ops.GetUser (u +:+ "/histories") token) w)
    as Hu.
  pose proof (call_recording respond baseUrl (Ops.GetHistories u token) w) as Hh.
  cbn [Ops.call] in Hu, Hh. rewrite Hu, Hh. cbn [fst snd].
  split_and!; [done | done |].
  intros env. unfold Spec.answer.
  change (Spec.expected_request baseUrl (Ops.GetUser (u +:+ "/histories") token))
    with (Spec.expected_request baseUrl (Ops.GetHistories u token)).
  destruct (respond _ _) as [body|e]; [|done].
  cbn [Ops.operation_name].
  destruct (validateResponse_cases body "getUser") as [[Hy ->] | [Hn ->]];
    destruct (validateResponse_cases body "getHistories") as [[Hy' ->] | [Hn' ->]];
    try done; split; intros ?; done.
Qed.

(* ================================================================== *)
(** * Further properties of the history-list hook *)
(* ================================================================== *)


Lemma sole_hook_without_user_is_quiet
    (respond : Responder) (baseUrl : string) (token : option string)
    (options_enabled : option bool) (w : World) (queryKey : Types.QueryKey) :
  Hooks.refetched (Hooks.sole_hook respond baseUrl None token options_enabled)
    w queryKey = [].
Proof. cbn. by destruct options_enabled as [[]|]. Qed.

(** X12. The non-null assertions of the hook are erased at run time: with a
    [null] user id and a [null] token the read is disabled, yet each write
    still calls the transport, under the path of the user ["null"] and with
    the header [Authorization: Bearer null]. *)
Theorem writes_with_null_user_and_token
    (respond : Responder) (baseUrl historyId : string) (data : JsValue)
    (options_enabled : option bool) (w : World) :
  let h := Hooks.useHistories (recordingNetworkClient respond)
             baseUrl None None options_enabled
             (Hooks.sole_hook respond baseUrl None None options_enabled) in
  Hooks.enabled h = false
  ∧ requests (Hooks.createHistory h data w).2
    = requests w
      ++ [new_Request POST
            (Helpers.buildUrl baseUrl "/api/v1/users/null/histories")
            (Helpers.createAuthHeaders "null") (Some data)]
  ∧ requests (Hooks.updateHistory h historyId data w).2
    = requests w
      ++ [new_Request PUT
            (Helpers.buildUrl baseUrl ("/api/v1/users/null/histories/" +:+ historyId))
            (Helpers.createAuthHeaders "null") (Some data)]
  ∧ requests (Hooks.deleteHistory h historyId w).2
    = requests w
      ++ [new_Request DELETE
            (Helpers.buildUrl baseUrl ("/api/v1/users/null/histories/" +:+ historyId))
            (Helpers.createAuthHeaders "null") None]
  ∧ Helpers.createAuthHeaders "null" !! "Authorization" = Some "Bearer null".
Proof.
  cbn zeta.
  pose proof (write_run respond baseUrl None None options_enabled
                (Hooks.sole_hook respond baseUrl None None options_enabled)) as Hw.
  assert (∀ w1, requests
                  (Hooks.invalidate
                     (Hooks.sole_hook respond baseUrl None None options_enabled)
                     (Hooks.latest_userId
                        (Hooks.sole_hook respond baseUrl None None options_enabled)
                        None) w1).2
                = requests w1) as Hquiet.
  { intros w1. rewrite invalidate_quiet; [done |].
    intros w' queryKey. apply sole_hook_without_user_is_quiet. }
  split_and!.
  - cbn. by destruct options_enabled as [[]|].
  - specialize (Hw (Ops.WriteCreate data) w). cbn [Ops.write] in Hw. rewrite Hw.
    cbn zeta. destruct (Spec.answer _ _ _ _); [|done]. cbn [snd].
    destruct (truthy _); [by rewrite Hquiet | done].
  - specialize (Hw (Ops.WriteUpdate historyId data) w). cbn [Ops.write] in Hw.
    rewrite Hw. cbn zeta. destruct (Spec.answer _ _ _ _); [|done]. cbn [snd].
    destruct (truthy _); [by rewrite Hquiet | done].
  - specialize (Hw (Ops.WriteDelete historyId) w). cbn [Ops.write] in Hw.
    rewrite Hw. cbn zeta. destruct (Spec.answer _ _ _ _); [|done]. cbn [snd].
    destruct (truthy _); [by rewrite Hquiet | done].
  - reflexivity.
Qed.

(** X13. The read of the hook is enabled exactly when the [enabled] option
    is not [false] and both the user id and the token are non-empty strings:
    a [null] or an empty user id or token disables it. *)
Theorem useHistories_enabled_iff
    (networkClient : NetworkClient.t) (baseUrl : string)
    (userId token : option string) (options_enabled : option bool)
    (engine : Hooks.Engine) :
  Hooks.enabled
    (Hooks.useHistories networkClient baseUrl userId token options_enabled engine)
  = true
  ↔ options_enabled ≠ Some false
    ∧ (∃ u, userId = Some u ∧ u ≠ "")
    ∧ (∃ t, token = Some t ∧ t ≠ "").
Proof.
  cbn [Hooks.useHistories Hooks.enabled].
  assert (∀ x, Hooks.nullable_truthy x = true ↔ ∃ s, x = Some s ∧ s ≠ "") as Htruthy.
  { intros [s|]; cbn.
    - rewrite negb_true_iff, String.eqb_neq. split; [by eauto |].
      by intros (? & [= <-] & ?).
    - split; [done | by intros (? & ? & ?)]. }
  rewrite !andb_true_iff, !Htruthy. clear Htruthy.
  destruct options_enabled as [[]|]; cbn; intuition congruence.
Qed.

(* ================================================================== *)
(** * The read side: query functions and projections *)
(* ================================================================== *)

Section QueryFns.
Import Reads Spec Ops Hooks.

Variable number_to_string : float → string.
Variable type_error : Error.
Variable respond : Responder.
Variable base : string.

Let client : Client.StarterClient :=
  Client.new_StarterClient base (recordingNetworkClient respond).

(** What a query function makes of a validated response. *)
Local Abbreviation settled fallback response :=
  (if negb (truthy (get_property response K_success))
      || negb (truthy (get_property response K_data))
   then throw_new_Error number_to_string type_error
          (or_else (get_property response K_error) (JString fallback))
   else Returns (get_property response K_data)).

Lemma histories_queryFn_run (userId token : Nullable) (w : World) :
  histories_queryFn number_to_string type_error client userId token w
  = (match answer respond base w
             (GetHistories (non_null userId) (non_null token)) with
     | Returns response => settled "Failed to fetch histories" response
     | Throws e => Throws e
     end,
     new_World
       (requests w
        ++ [expected_request base (GetHistories (non_null userId) (non_null token))])
       (invalidated w)).
Proof.
  pose proof (call_recording respond base
                (GetHistories (non_null userId) (non_null token)) w) as Hc.
  cbn [call] in Hc. unfold histories_queryFn, bind at 1. fold client in Hc.
  rewrite Hc. destruct (answer _ _ _ _) as [response|e]; [|done].
  by destruct (negb _ || negb _).
Qed.

Lemma total_queryFn_run (w : World) :
  total_queryFn number_to_string type_error client w
  = (match answer respond base w GetHistoriesTotal with
     | Returns response => settled "Failed to fetch total" response
     | Throws e => Throws e
     end,
     new_World (requests w ++ [expected_request base GetHistoriesTotal])
       (invalidated w)).
Proof.
  pose proof (call_recording respond base GetHistoriesTotal w) as Hc.
  cbn [call] in Hc. unfold total_queryFn, bind at 1. fold client in Hc.
  rewrite Hc. destruct (answer _ _ _ _) as [response|e]; [|done].
  by destruct (negb _ || negb _).
Qed.

(** [throw new Error(x)] never returns. *)
Lemma throw_new_Error_throws (x d : JsValue) :
  throw_new_Error number_to_string type_error x ≠ Returns d.
Proof. unfold throw_new_Error. by destruct (Error_of _ _ _). Qed.

(** A validated response is settled as data exactly when its [success] is
    [true] and its [data] is truthy. *)
Lemma settled_Returns (fallback : string) (response d : JsValue) :
  is_envelope response →
  settled fallback response = Returns d
  ↔ get_property response K_success = JBoolean true
    ∧ get_property response K_data = d ∧ truthy d = true.
Proof.
  intros (_ & _ & _ & b & Hb). rewrite Hb. cbn [truthy].
  destruct b; cbn [negb orb].
  - destruct (truthy (get_property response K_data)) eqn:Hd; cbn [negb].
    + split; [by intros [= <-] | by intros (_ & <- & _)].
    + split; [by intros ?%throw_new_Error_throws
             | intros (_ & <- & Ht); congruence].
  - split; [by intros ?%throw_new_Error_throws | by intros ([= ] & _)].
Qed.

(** A response that is refused is settled as an [Error] carrying its
    [error] field when that is truthy, and the fallback otherwise. *)
Lemma settled_Throws (fallback : string) (response : JsValue) :
  get_property response K_success = JBoolean false
  ∨ truthy (get_property response K_data) = false →
  settled fallback response
  = throw_new_Error number_to_string type_error
      (or_else (get_property response K_error) (JString fallback)).
Proof.
  intros [-> | ->]; [done |]. by rewrite orb_true_r.
Qed.

Lemma Error_of_or_else_string (x : JsValue) (fallback e : string) :
  x = JString e → e ≠ "" →
  throw_new_Error number_to_string type_error (or_else x (JString fallback))
  = Throws (ThrownError (new_Error e)).
Proof.
  intros -> He. unfold or_else. cbn [truthy].
  apply String.eqb_neq in He. by rewrite He.
Qed.

Lemma Error_of_or_else_falsy (x : JsValue) (fallback : string) :
  truthy x = false →
  throw_new_Error number_to_string type_error (or_else x (JString fallback))
  = Throws (ThrownError (new_Error fallback)).
Proof. intros H. unfold or_else. by rewrite H. Qed.

Lemma answer_Returns (w : World) (op : Operation) (response : JsValue) :
  answer respond base w op = Returns response
  ↔ respond (requests w) (expected_request base op) = Returns response
    ∧ is_envelope response.
Proof.
  unfold answer. destruct (respond _ _) as [body|e].
  - destruct (validateResponse_cases body (operation_name op))
      as [[Hy ->] | [Hn ->]].
    + split; [by intros [= <-] | by intros [[= <-] _]].
    + split; [done | by intros [[= <-] ?]].
  - split; [done | by intros [? _]].
Qed.

End QueryFns.

(** What the engine's refetch of a read does to the world is what the
    query function of that read does to it. *)
Lemma run_read_is_the_queryFn
    (number_to_string : float → string) (type_error : Error)
    (respond : Responder) (baseUrl : string) (userId token : option string)
    (w : World) :
  (Hooks.run_read (Hooks.ReadHistories respond baseUrl userId token) w).2
  = (Reads.histories_queryFn number_to_string type_error
       (Client.new_StarterClient baseUrl (recordingNetworkClient respond))
       userId token w).2
  ∧ (Hooks.run_read (Hooks.ReadTotal respond baseUrl) w).2
    = (Reads.total_queryFn number_to_string type_error
         (Client.new_StarterClient baseUrl (recordingNetworkClient respond)) w).2.
Proof.
  rewrite !run_read_world, histories_queryFn_run, total_queryFn_run.
  by split.
Qed.

(** X14. The query function of the history-list hook makes one [GET] call
    for the user's histories and touches no cache key; it returns [d]
    exactly when the transport answered with an envelope whose [success] is
    [true] and whose [data] is [d], a truthy value (an empty list is one). *)
Theorem histories_queryFn_returns_iff
    (number_to_string : float → string) (type_error : Error)
    (respond : Responder) (baseUrl : string)
    (userId token : option string) (w : World) (d : JsValue) :
  let c := Client.new_StarterClient baseUrl (recordingNetworkClient respond) in
  let req := Spec.expected_request baseUrl
               (Ops.GetHistories (Hooks.non_null userId) (Hooks.non_null token)) in
  (Reads.histories_queryFn number_to_string type_error c userId token w).2
  = new_World (requests w ++ [req]) (invalidated w)
  ∧ ((Reads.histories_queryFn number_to_string type_error c userId token w).1 = Returns d
     ↔ ∃ body, respond (requests w) req = Returns body
               ∧ Spec.is_envelope body
               ∧ get_property body K_success = JBoolean true
               ∧ get_property body K_data = d
               ∧ truthy d = true).
Proof.
  cbn zeta. rewrite histories_queryFn_run. cbn [fst snd]. split; [done |].
  destruct (Spec.answer respond baseUrl w _) as [response|e] eqn:Ha.
  - apply answer_Returns in Ha as [Hr Henv].
    rewrite (settled_Returns number_to_string type_error _ _ _ Henv). split.
    + intros (? & ? & ?). by exists response.
    + intros (body & Hb & _ & ? & ? & ?). rewrite Hr in Hb. by injection Hb as <-.
  - split; [done |]. intros (body & Hb & Henv & _).
    assert (Spec.answer respond baseUrl w
              (Ops.GetHistories (Hooks.non_null userId) (Hooks.non_null token))
            = Returns body) as Hbody by (by apply answer_Returns).
    congruence.
Qed.

(** X15. The query function of the history-list hook turns a refused
    response into a thrown [Error]: when the transport answers with an
    envelope whose [success] is [false], or whose [data] is missing or
    falsy, it throws an [Error] whose message is the envelope's [error]
    when that is a non-empty string, and ["Failed to fetch histories"] when
    the [error] is absent or falsy. *)
Theorem histories_queryFn_business_failure
    (number_to_string : float → string) (type_error : Error)
    (respond : Responder) (baseUrl : string)
    (userId token : option string) (w : World) (body : JsValue) :
  let c := Client.new_StarterClient baseUrl (recordingNetworkClient respond) in
  respond (requests w)
    (Spec.expected_request baseUrl
       (Ops.GetHistories (Hooks.non_null userId) (Hooks.non_null token)))
  = Returns body →
  Spec.is_envelope body →
  get_property body K_success = JBoolean false
  ∨ truthy (get_property body K_data) = false →
  (∀ e, get_property body K_error = JString e → e ≠ "" →
     (Reads.histories_queryFn number_to_string type_error c userId token w).1
     = Throws (ThrownError (new_Error e)))
  ∧ (truthy (get_property body K_error) = false →
     (Reads.histories_queryFn number_to_string type_error c userId token w).1
     = Throws (ThrownError (new_Error "Failed to fetch histories"))).
Proof.
  cbn zeta. intros Hr Henv Hrefused.
  rewrite histories_queryFn_run. cbn [fst].
  rewrite (proj2 (answer_Returns respond baseUrl w _ body) (conj Hr Henv)).
  rewrite (settled_Throws number_to_string type_error _ _ Hrefused). split.
  - intros e He Hne. by rewrite (Error_of_or_else_string _ _ _ _ e He Hne).
  - intros He. by rewrite (Error_of_or_else_falsy _ _ _ _ He).
Qed.

(** The "Not found" envelope of the tests. *)
Lemma histories_queryFn_business_failure_witness :
  let body := Ops.object [("success", JBoolean false); ("error", JString "Not found")] in
  let c := Client.new_StarterClient "https://api.example.com"
             (recordingNetworkClient (λ _ _, Returns body)) in
  (Reads.histories_queryFn (λ _, "") (new_Error "Cannot convert object to primitive value") c (Some "user-123") (Some "tok")
     (new_World [] [])).1
  = Throws (ThrownError (new_Error "Not found")).
Proof.
  cbn zeta.
  refine (proj1 (histories_queryFn_business_failure (λ _, "") (new_Error "Cannot convert object to primitive value")
            (λ _ _, Returns (Ops.object [("success", JBoolean false);
                                         ("error", JString "Not found")]))
            "https://api.example.com" (Some "user-123") (Some "tok")
            (new_World [] [])
            (Ops.object [("success", JBoolean false); ("error", JString "Not found")])
            eq_refl _ (or_introl eq_refl))
            "Not found" eq_refl _).
  - split_and!; [done | reflexivity | vm_compute; eauto | by exists false].
  - intros H. discriminate H.
Defined.

(** X16. The query functions of both hooks pass failures of the layers
    below on as they are: what the transport threw is thrown, and a body
    that is not an envelope throws the validator's error for [getHistories]
    and for [getHistoriesTotal]. *)
Theorem queryFns_pass_failures_on
    (number_to_string : float → string) (type_error : Error)
    (respond : Responder) (baseUrl : string)
    (userId token : option string) (w : World) :
  let c := Client.new_StarterClient baseUrl (recordingNetworkClient respond) in
  let req := Spec.expected_request baseUrl
               (Ops.GetHistories (Hooks.non_null userId) (Hooks.non_null token)) in
  let req_total := Spec.expected_request baseUrl Ops.GetHistoriesTotal in
  (∀ e, respond (requests w) req = Throws e →
     (Reads.histories_queryFn number_to_string type_error c userId token w).1 = Throws e)
  ∧ (∀ body, respond (requests w) req = Returns body → ¬ Spec.is_envelope body →
       (Reads.histories_queryFn number_to_string type_error c userId token w).1
       = Throws (ThrownError (new_Error
           "Invalid API response for getHistories: response does not match expected BaseResponse shape")))
  ∧ (∀ e, respond (requests w) req_total = Throws e →
       (Reads.total_queryFn number_to_string type_error c w).1 = Throws e)
  ∧ (∀ body, respond (requests w) req_total = Returns body → ¬ Spec.is_envelope body →
       (Reads.total_queryFn number_to_string type_error c w).1
       = Throws (ThrownError (new_Error
           "Invalid API response for getHistoriesTotal: response does not match expected BaseResponse shape"))).
Proof.
  cbn zeta. rewrite histories_queryFn_run, total_queryFn_run. cbn [fst].
  unfold Spec.answer. split_and!.
  - by intros e ->.
  - intros body -> Hn. cbn [Ops.operation_name].
    by destruct (validateResponse_cases body "getHistories") as [[? _] | [_ ->]].
  - by intros e ->.
  - intros body -> Hn. cbn [Ops.operation_name].
    by destruct (validateResponse_cases body "getHistoriesTotal") as [[? _] | [_ ->]].
Qed.

(** A transport that is offline, seen through the total query. *)
Lemma queryFns_pass_failures_on_witness :
  let c := Client.new_StarterClient "https://api.example.com"
             (recordingNetworkClient
                (λ _ _, Throws (ThrownError (new_Error "Network down")))) in
  (Reads.total_queryFn (λ _, "") (new_Error "Cannot convert object to primitive value") c (new_World [] [])).1
  = Throws (ThrownError (new_Error "Network down")).
Proof.
  cbn zeta.
  exact (proj1 (proj2 (proj2 (queryFns_pass_failures_on (λ _, "") (new_Error "Cannot convert object to primitive value")
           (λ _ _, Throws (ThrownError (new_Error "Network down")))
           "https://api.example.com" None None (new_World [] []))))
           (ThrownError (new_Error "Network down")) eq_refl).
Defined.

(** X17. The query function of the total hook makes one unauthenticated
    [GET] call for the total and touches no cache key; it returns [d]
    exactly when the transport answered with an envelope whose [success] is
    [true] and whose [data] is [d], a truthy value. *)
Theorem total_queryFn_returns_iff
    (number_to_string : float → string) (type_error : Error)
    (respond : Responder) (baseUrl : string)
    (w : World) (d : JsValue) :
  let c := Client.new_StarterClient baseUrl (recordingNetworkClient respond) in
  let req := new_Request GET
               (Helpers.buildUrl baseUrl "/api/v1/histories/total")
               Helpers.createHeaders None in
  (Reads.total_queryFn number_to_string type_error c w).2
  = new_World (requests w ++ [req]) (invalidated w)
  ∧ ((Reads.total_queryFn number_to_string type_error c w).1 = Returns d
     ↔ ∃ body, respond (requests w) req = Returns body
               ∧ Spec.is_envelope body
               ∧ get_property body K_success = JBoolean true
               ∧ get_property body K_data = d
               ∧ truthy d = true).
Proof.
  cbn zeta. rewrite total_queryFn_run. cbn [fst snd]. split; [done |].
  change (new_Request GET (Helpers.buildUrl baseUrl "/api/v1/histories/total")
            Helpers.createHeaders None)
    with (Spec.expected_request baseUrl Ops.GetHistoriesTotal).
  destruct (Spec.answer respond baseUrl w _) as [response|e] eqn:Ha.
  - apply answer_Returns in Ha as [Hr Henv].
    rewrite (settled_Returns number_to_string type_error _ _ _ Henv). split.
    + intros (? & ? & ?). by exists response.
    + intros (body & Hb & _ & ? & ? & ?). rewrite Hr in Hb. by injection Hb as <-.
  - split; [done |]. intros (body & Hb & Henv & _).
    assert (Spec.answer respond baseUrl w Ops.GetHistoriesTotal = Returns body)
      as Hbody by (by apply answer_Returns).
    congruence.
Qed.

(** X18. The query function of the total hook turns a refused response
    into a thrown [Error]: for an envelope whose [success] is [false], or
    whose [data] is missing or falsy, the message is the envelope's [error]
    when that is a non-empty string, and ["Failed to fetch total"] when the
    [error] is absent or falsy. *)
Theorem total_queryFn_business_failure
    (number_to_string : float → string) (type_error : Error)
    (respond : Responder) (baseUrl : string)
    (w : World) (body : JsValue) :
  let c := Client.new_StarterClient baseUrl (recordingNetworkClient respond) in
  respond (requests w) (Spec.expected_request baseUrl Ops.GetHistoriesTotal)
  = Returns body →
  Spec.is_envelope body →
  get_property body K_success = JBoolean false
  ∨ truthy (get_property body K_data) = false →
  (∀ e, get_property body K_error = JString e → e ≠ "" →
     (Reads.total_queryFn number_to_string type_error c w).1
     = Throws (ThrownError (new_Error e)))
  ∧ (truthy (get_property body K_error) = false →
     (Reads.total_queryFn number_to_string type_error c w).1
     = Throws (ThrownError (new_Error "Failed to fetch total"))).
Proof.
  cbn zeta. intros Hr Henv Hrefused.
  rewrite total_queryFn_run. cbn [fst].
  rewrite (proj2 (answer_Returns respond baseUrl w _ body) (conj Hr Henv)).
  rewrite (settled_Throws number_to_string type_error _ _ Hrefused). split.
  - intros e He Hne. by rewrite (Error_of_or_else_string _ _ _ _ e He Hne).
  - intros He. by rewrite (Error_of_or_else_falsy _ _ _ _ He).
Qed.

(** A confirmed response that carries no [data]. *)
Lemma total_queryFn_business_failure_witness :
  let body := Ops.object [("success", JBoolean true)] in
  let c := Client.new_StarterClient "https://api.example.com"
             (recordingNetworkClient (λ _ _, Returns body)) in
  (Reads.total_queryFn (λ _, "") (new_Error "Cannot convert object to primitive value") c (new_World [] [])).1
  = Throws (ThrownError (new_Error "Failed to fetch total")).
Proof.
  cbn zeta.
  refine (proj2 (total_queryFn_business_failure (λ _, "") (new_Error "Cannot convert object to primitive value")
            (λ _ _, Returns (Ops.object [("success", JBoolean true)]))
            "https://api.example.com" (new_World [] [])
            (Ops.object [("success", JBoolean true)])
            eq_refl _ (or_intror eq_refl)) eq_refl).
  split_and!; [done | reflexivity | vm_compute; eauto | by exists true].
Defined.

(** X19. The [total] the total hook returns is never [null] or
    [undefined]: it is [0] while no data is loaded and when the data has no
    [total]; otherwise it is the data's [total], also when that is [0]. *)
Theorem total_is_never_nullish (r : Reads.QueryResult) :
  Reads.total (Reads.useHistoriesTotal_return r) ≠ JUndefined
  ∧ Reads.total (Reads.useHistoriesTotal_return r) ≠ JNull
  ∧ (Reads.query_data r = JUndefined →
     Reads.total (Reads.useHistoriesTotal_return r) = JNumber 0)
  ∧ (∀ props, Reads.query_data r = JObject props → props !! "total" = None →
       Reads.total (Reads.useHistoriesTotal_return r) = JNumber 0)
  ∧ (∀ props x, Reads.query_data r = JObject props → props !! "total" = Some x →
       x ≠ JNull → x ≠ JUndefined →
       Reads.total (Reads.useHistoriesTotal_return r) = x).
Proof.
  unfold Reads.useHistoriesTotal_return. cbn [Reads.total].
  split_and!.
  - unfold Reads.nullish_else. by destruct (Reads.optional_get_total _).
  - unfold Reads.nullish_else. by destruct (Reads.optional_get_total _).
  - by intros ->.
  - intros props -> Hp. cbn. by rewrite Hp.
  - intros props x -> Hp Hn Hu. cbn. rewrite Hp. cbn. by destruct x.
Qed.

(** X20. End to end, for the total hook: when the transport answers with
    an envelope whose [success] is [true] and whose [data] carries the
    number [n] as [total], the query function returns that data, and the
    hook, given it by the caching engine, returns [n] as its total and no
    error. *)
Theorem total_hook_shows_the_total
    (number_to_string : float → string) (type_error : Error)
    (respond : Responder) (baseUrl : string)
    (options_enabled : option bool) (w : World)
    (props dprops : gmap string JsValue) (n : float) (loading : bool) :
  let q := Reads.useHistoriesTotal_query number_to_string type_error
             (recordingNetworkClient respond) baseUrl options_enabled in
  respond (requests w) (Spec.expected_request baseUrl Ops.GetHistoriesTotal)
  = Returns (JObject props) →
  props !! "success" = Some (JBoolean true) →
  props !! "data" = Some (JObject dprops) →
  dprops !! "total" = Some (JNumber n) →
  (Reads.queryFn q w).1 = Returns (JObject dprops)
  ∧ Reads.total (Reads.useHistoriesTotal_return
                   (Reads.new_QueryResult (JObject dprops) loading None))
    = JNumber n
  ∧ Reads.error (Reads.useHistoriesTotal_return
                   (Reads.new_QueryResult (JObject dprops) loading None))
    = None.
Proof.
  cbn zeta. intros Hr Hs Hd Ht.
  cbn [Reads.useHistoriesTotal_query Reads.queryFn].
  rewrite total_queryFn_run. cbn [fst].
  assert (Spec.is_envelope (JObject props)) as Henv.
  { split_and!; [done | done | by cbn; rewrite Hs | cbn; rewrite Hs; by exists true]. }
  rewrite (proj2 (answer_Returns respond baseUrl w _ _) (conj Hr Henv)).
  cbn. rewrite Hs, Hd. cbn. by rewrite Ht.
Qed.

(** The total of the tests: 42. *)
Lemma total_hook_shows_the_total_witness :
  let data := Ops.object [("total", JNumber 42)] in
  let body := Ops.object [("success", JBoolean true); ("data", data)] in
  let q := Reads.useHistoriesTotal_query (λ _, "") (new_Error "Cannot convert object to primitive value")
             (recordingNetworkClient (λ _ _, Returns body))
             "https://api.example.com" None in
  (Reads.queryFn q (new_World [] [])).1 = Returns data
  ∧ Reads.total (Reads.useHistoriesTotal_return
                   (Reads.new_QueryResult data false None))
    = JNumber 42
  ∧ Reads.error (Reads.useHistoriesTotal_return
                   (Reads.new_QueryResult data false None))
    = None.
Proof.
  cbn zeta.
  exact (total_hook_shows_the_total (λ _, "") (new_Error "Cannot convert object to primitive value")
           (λ _ _, Returns (Ops.object [("success", JBoolean true);
                                        ("data", Ops.object [("total", JNumber 42)])]))
           "https://api.example.com" None (new_World [] [])
           (list_to_map [("success", JBoolean true);
                         ("data", Ops.object [("total", JNumber 42)])])
           (list_to_map [("total", JNumber 42)]) 42 false
           eq_refl eq_refl eq_refl eq_refl).
Defined.

(** X21. The [error] string of the total hook is the message of the
    rejection when the rejection is an [Error], and [null] otherwise: when
    the load was rejected with a value that is not an [Error], the hook
    reports no error. *)
Theorem total_hook_error_projection (r : Reads.QueryResult) :
  (∀ m, Reads.error (Reads.useHistoriesTotal_return r) = Some m
        ↔ ∃ e, Reads.query_error r = Some (ThrownError e) ∧ message e = m)
  ∧ (∀ v, Reads.query_error r = Some (ThrownValue v) →
       Reads.error (Reads.useHistoriesTotal_return r) = None).
Proof.
  unfold Reads.useHistoriesTotal_return. cbn [Reads.error Reads.total].
  split_and!.
  - intros m. destruct (Reads.query_error r) as [[e|v]|]; cbn.
    + split; [intros [= <-]; by exists e | by intros (? & [= <-] & <-)].
    + split; [done | by intros (? & ? & _)].
    + split; [done | by intros (? & ? & _)].
  - by intros v ->.
Qed.

(** X22. The [error] string of the history-list hook gives precedence to
    the read over the writes, and among the writes to create over update
    over delete: it is the message of the first of these four rejections
    that is present, when the ones before it are absent and it is an
    [Error]. *)
Theorem histories_error_precedence
    (queryError createError updateError deleteError : option Exception) (e : Error) :
  (queryError = Some (ThrownError e) →
   Reads.histories_error queryError createError updateError deleteError
   = Some (message e))
  ∧ (queryError = None → createError = Some (ThrownError e) →
     Reads.histories_error queryError createError updateError deleteError
     = Some (message e))
  ∧ (queryError = None → createError = None → updateError = Some (ThrownError e) →
     Reads.histories_error queryError createError updateError deleteError
     = Some (message e))
  ∧ (queryError = None → createError = None → updateError = None →
     deleteError = Some (ThrownError e) →
     Reads.histories_error queryError createError updateError deleteError
     = Some (message e))
  ∧ (queryError = None → createError = None → updateError = None →
     deleteError = None →
     Reads.histories_error queryError createError updateError deleteError = None).
Proof.
  split_and!; intros; by subst.
Qed.

(** A failed read and a failed create at once: the read's message wins. *)
Lemma histories_error_precedence_witness :
  Reads.histories_error
    (Some (ThrownError (new_Error "Failed to fetch histories")))
    (Some (ThrownError (new_Error "Invalid API response for createHistory")))
    None None
  = Some "Failed to fetch histories".
Proof.
  exact (proj1 (histories_error_precedence
                  (Some (ThrownError (new_Error "Failed to fetch histories")))
                  (Some (ThrownError (new_Error "Invalid API response for createHistory")))
                  None None (new_Error "Failed to fetch histories")) eq_refl).
Defined.



(** X24. End to end, for the history-list hook: when the transport answers
    the read with an envelope whose [success] is [false] and whose [error]
    is the non-empty string [e], the query function rejects, and the hook,
    given that rejection by the caching engine, shows [e] as its [error],
    whatever the mutations hold. *)
Theorem histories_hook_shows_the_business_error
    (number_to_string : float → string) (type_error : Error)
    (respond : Responder) (baseUrl : string)
    (userId token : option string) (w : World) (body : JsValue) (e : string) :
  let c := Client.new_StarterClient baseUrl (recordingNetworkClient respond) in
  respond (requests w)
    (Spec.expected_request baseUrl
       (Ops.GetHistories (Hooks.non_null userId) (Hooks.non_null token)))
  = Returns body →
  Spec.is_envelope body →
  get_property body K_success = JBoolean false →
  get_property body K_error = JString e →
  e ≠ "" →
  ∃ rejection,
    (Reads.histories_queryFn number_to_string type_error c userId token w).1 = Throws rejection
    ∧ ∀ createError updateError deleteError,
        Reads.histories_error (Some rejection) createError updateError deleteError
        = Some e.
Proof.
  cbn zeta. intros Hr Henv Hs He Hne.
  exists (ThrownError (new_Error e)). split; [|done].
  rewrite histories_queryFn_run. cbn [fst].
  rewrite (proj2 (answer_Returns respond baseUrl w _ body) (conj Hr Henv)).
  rewrite (settled_Throws number_to_string type_error _ _ (or_introl Hs)).
  by rewrite (Error_of_or_else_string _ _ _ _ e He Hne).
Qed.

(** The "Not found" envelope of the tests, seen through the hook. *)
Lemma histories_hook_shows_the_business_error_witness :
  let body := Ops.object [("success", JBoolean false); ("error", JString "Not found")] in
  let c := Client.new_StarterClient "https://api.example.com"
             (recordingNetworkClient (λ _ _, Returns body)) in
  ∃ rejection,
    (Reads.histories_queryFn (λ _, "") (new_Error "Cannot convert object to primitive value") c (Some "user-123") (Some "tok")
       (new_World [] [])).1 = Throws rejection
    ∧ ∀ createError updateError deleteError,
        Reads.histories_error (Some rejection) createError updateError deleteError
        = Some "Not found".
Proof.
  cbn zeta.
  refine (histories_hook_shows_the_business_error (λ _, "") (new_Error "Cannot convert object to primitive value")
            (λ _ _, Returns (Ops.object [("success", JBoolean false);
                                         ("error", JString "Not found")]))
            "https://api.example.com" (Some "user-123") (Some "tok")
            (new_World [] [])
            (Ops.object [("success", JBoolean false); ("error", JString "Not found")])
            "Not found" eq_refl _ eq_refl eq_refl _).
  - split_and!; [done | reflexivity | vm_compute; eauto | by exists false].
  - intros H. discriminate H.
Defined.

(** X25. The two hooks agree on the key of the global total: the key the
    total hook registers its query under is among the keys a write through
    the history-list hook invalidates whenever the write returns an
    envelope whose [success] is [true], for every user id, whatever the
    engine refetches and whichever render's [onSuccess] runs. *)
Theorem confirmed_write_invalidates_the_total_query
    (number_to_string : float → string) (type_error : Error)
    (respond : Responder)
    (networkClient : NetworkClient.t) (baseUrl baseUrl' : string)
    (userId token : option string) (options_enabled options_enabled' : option bool)
    (engine : Hooks.Engine) (wr : Ops.Write) (w : World) (env : JsValue) :
  let h := Hooks.useHistories (recordingNetworkClient respond)
             baseUrl userId token options_enabled engine in
  let q := Reads.useHistoriesTotal_query number_to_string type_error networkClient
             baseUrl' options_enabled' in
  (Ops.write h wr w).1 = Returns env →
  get_property env K_success = JBoolean true →
  Reads.queryKey q ∈ invalidated (Ops.write h wr w).2.
Proof.
  cbn zeta. rewrite write_run. cbn zeta.
  destruct (Spec.answer respond baseUrl w (Ops.write_operation userId token wr))
    as [env'|e]; [|done].
  cbn [fst snd]. intros [= ->] ->. cbn [truthy].
  destruct (invalidate_run engine (Hooks.latest_userId engine userId)
              (new_World
                 (requests w
                  ++ [Spec.expected_request baseUrl
                        (Ops.write_operation userId token wr)])
                 (invalidated w)))
    as (refetches & -> & _).
  cbn [snd invalidated Reads.useHistoriesTotal_query Reads.queryKey].
  rewrite !elem_of_app. right. right. by apply list_elem_of_singleton.
Qed.

(** A confirmed delete by a hook without a user id. *)
Lemma confirmed_write_invalidates_the_total_query_witness :
  let ok := Ops.object [("success", JBoolean true)] in
  let base := "https://api.example.com" in
  let h := Hooks.useHistories (recordingNetworkClient (λ _ _, Returns ok))
             base None None None
             (Hooks.sole_hook (λ _ _, Returns ok) base None None None) in
  let q := Reads.useHistoriesTotal_query (λ _, "")
             (new_Error "Cannot convert object to primitive value")
             (recordingNetworkClient (λ _ _, Returns ok)) base None in
  Reads.queryKey q
  ∈ invalidated (Ops.write h (Ops.WriteDelete "hist-456") (new_World [] [])).2.
Proof.
  cbn zeta.
  exact (confirmed_write_invalidates_the_total_query (λ _, "")
           (new_Error "Cannot convert object to primitive value")
           (λ _ _, Returns (Ops.object [("success", JBoolean true)]))
           (recordingNetworkClient
              (λ _ _, Returns (Ops.object [("success", JBoolean true)])))
           "https://api.example.com" "https://api.example.com"
           None None None None
           (Hooks.sole_hook (λ _ _, Returns (Ops.object [("success", JBoolean true)]))
              "https://api.example.com" None None None)
           (Ops.WriteDelete "hist-456") (new_World [] [])
           (Ops.object [("success", JBoolean true)]) eq_refl eq_refl).
Defined.
